(** * OpenMetadata UI: status modal and user-creation form

    A shallow embedding of two React components of the OpenMetadata UI:

    - [TestCaseStatusModal] (the incident status modal), and
    - [CreateUser] (the user / bot creation form),

    followed by the properties of their handlers.  React state is an
    explicit record, a handler is a function on that record, and the
    asynchronous handlers (which use try / catch / finally around a
    network call) live in a small state-and-exception monad. *)

From Stdlib Require Import ZArith Ascii String.
From stdpp Require Import base option list strings gmap.

Local Open Scope string_scope.
Local Open Scope list_scope.

(** ** JavaScript primitives used by the components *)

Module Js.

(** [String.prototype.split] with a one-character separator.  The result
    is never empty: a string without the separator is returned whole, and
    the empty string gives one empty piece.  The separators the components
    use (['@'] and [',']) are ASCII, so splitting a UTF-8 byte string at
    them agrees with splitting the UTF-16 string. *)
Fixpoint split (sep : ascii) (s : string) : list string :=
  match s with
  | EmptyString => [EmptyString]
  | String c rest =>
      if bool_decide (c = sep) then EmptyString :: split sep rest
      else match split sep rest with
           | piece :: pieces => String c piece :: pieces
           | [] => [String c EmptyString]
           end
  end.

Section Arrays.
Context {A : Type} `{EqDecision A}.

(** [Array.prototype.includes]. *)
Definition includes (l : list A) (x : A) : bool := bool_decide (x ∈ l).

(** [Array.prototype.indexOf]: the first index holding [x], or [-1]. *)
Fixpoint indexOf (l : list A) (x : A) : Z :=
  match l with
  | [] => (-1)%Z
  | y :: l' =>
      if bool_decide (y = x) then 0%Z
      else let i := indexOf l' x in
           if (i <? 0)%Z then (-1)%Z else (i + 1)%Z
  end.

(** [Array.prototype.splice(start, deleteCount)] as the array it leaves
    behind.  A negative [start] counts from the end of the array (and is
    clamped at 0), a [start] past the end is clamped to the length. *)
Definition splice (l : list A) (start : Z) (deleteCount : nat) : list A :=
  let len := Z.of_nat (length l) in
  let from :=
    if (start <? 0)%Z then Z.to_nat (Z.max (len + start) 0)
    else Z.to_nat (Z.min start len) in
  take from l ++ drop (from + deleteCount) l.
End Arrays.

End Js.

(** ** Handlers with effects

    An asynchronous handler is run to completion against a world [W]: it
    either returns or throws, and leaves a new world behind.  [await] is
    sequencing; a rejected promise is a thrown exception. *)

Module Eff.

Inductive Outcome (E A : Type) : Type :=
| Returned (a : A)
| Thrown (e : E).
Arguments Returned {E A} a.
Arguments Thrown {E A} e.

Definition M (W E A : Type) : Type := W → Outcome E A * W.

Section Operations.
Context {W E : Type}.

Definition ret {A} (a : A) : M W E A := λ w, (Returned a, w).

Definition bind {A B} (m : M W E A) (k : A → M W E B) : M W E B :=
  λ w, match m w with
       | (Returned a, w') => k a w'
       | (Thrown e, w') => (Thrown e, w')
       end.

Definition throw {A} (e : E) : M W E A := λ w, (Thrown e, w).

Definition gets {A} (f : W → A) : M W E A := λ w, (Returned (f w), w).

Definition modify (f : W → W) : M W E unit := λ w, (Returned tt, f w).

(** [try { body } catch (e) { handler e }] *)
Definition try_catch {A} (body : M W E A) (handler : E → M W E A)
    : M W E A :=
  λ w, match body w with
       | (Returned a, w') => (Returned a, w')
       | (Thrown e, w') => handler e w'
       end.

(** [try { body } finally { cleanup }]: the cleanup runs on both exits
    and the outcome of the body is kept, unless the cleanup throws. *)
Definition try_finally {A} (body : M W E A) (cleanup : M W E unit)
    : M W E A :=
  λ w, let '(r, w') := body w in
       match cleanup w' with
       | (Returned _, w'') => (r, w'')
       | (Thrown e, w'') => (Thrown e, w'')
       end.
End Operations.

Declare Scope eff_scope.
Delimit Scope eff_scope with eff.
Notation "x <- m ;; k" := (bind m (λ x, k))
  (at level 100, m at next level, right associativity) : eff_scope.
Notation "m ;; k" := (bind m (λ _, k))
  (at level 100, right associativity) : eff_scope.

End Eff.

(** ** The incident status modal: [TestCaseStatusModal] *)

Module TestCaseStatusModal.
Import Eff.

(** The enums come from generated files; the members below are the ones
    the component names, any other member is kept by its tag. *)
Inductive TestCaseResolutionStatusTypes : Type :=
| Assigned
| Resolved
| OtherStatus (tag : string).

Inductive EntityType : Type :=
| USER
| OtherEntityType (tag : string).

#[global] Instance TestCaseResolutionStatusTypes_eq_dec :
  EqDecision TestCaseResolutionStatusTypes.
Proof. solve_decision. Defined.

#[global] Instance EntityType_eq_dec : EqDecision EntityType.
Proof. solve_decision. Defined.

(** A property that may be [undefined] is an [option]. *)
Record EntityReference : Type := {
  ref_id : option string;
  ref_type : EntityType;
  ref_name : option string;
  ref_displayName : option string;
}.

(** An entry of the list the assignee picker reports. *)
Record AssigneeOption : Type := {
  opt_value : option string;
  opt_name : option string;
  opt_displayName : option string;
}.

(** What the form field [testCaseResolutionStatusDetails.assignee] can
    hold at run time (the form store and [Form.useWatch] are untyped):
    nothing, the list of entries the picker reported (the shape
    [handleFormSubmit] reads with [.length] and [[0]]), or one entity
    reference (the shape the pre-populating effect writes and the
    rendered [UserTag] reads). *)
Inductive AssigneeValue : Type :=
| NoAssignee
| Selection (items : list AssigneeOption)
| Reference (r : EntityReference).

Record StatusDetails : Type := {
  testCaseFailureReason : option string;
  testCaseFailureComment : option string;
  resolvedBy : option EntityReference;
  assignee : AssigneeValue;
}.

(** The form values and the request ([CreateTestCaseResolutionStatus]);
    the [data] prop and the server response are read through the same
    three properties. *)
Record CreateTestCaseResolutionStatus : Type := {
  testCaseResolutionStatusType : option TestCaseResolutionStatusTypes;
  testCaseResolutionStatusDetails : option StatusDetails;
  testCaseReference : option string;
}.

Record SelectOption : Type := {
  label : TestCaseResolutionStatusTypes;
  value : TestCaseResolutionStatusTypes;
}.

Inductive Exn : Type :=
| AxiosError (message : string)
| TypeError (message : string).

(** What the handler does to its surroundings, in order. *)
Inductive Event : Type :=
| Posted (request : CreateTestCaseResolutionStatus)
| OnSubmit (response : CreateTestCaseResolutionStatus)
| OnCancel
| ErrorToast (error : Exn).

Record World : Type := {
  isLoading : bool;
  form : CreateTestCaseResolutionStatus;
  events : list Event;
}.

Definition setIsLoading (b : bool) : M World Exn unit :=
  modify (λ w, {| isLoading := b; form := form w; events := events w |}).

Definition emit (ev : Event) : M World Exn unit :=
  modify (λ w, {| isLoading := isLoading w; form := form w;
                  events := events w ++ [ev] |}).

Definition onSubmit (response : CreateTestCaseResolutionStatus)
    : M World Exn unit := emit (OnSubmit response).
Definition onCancel : M World Exn unit := emit OnCancel.
Definition showErrorToast (error : Exn) : M World Exn unit :=
  emit (ErrorToast error).

(** [{...details}]: spreading [undefined] gives the empty object. *)
Definition spread (details : option StatusDetails) : StatusDetails :=
  default {| testCaseFailureReason := None; testCaseFailureComment := None;
             resolvedBy := None; assignee := NoAssignee |} details.

(** [Form.useWatch(['testCaseResolutionStatusDetails', 'assignee'])] *)
Definition watchAssignee (f : CreateTestCaseResolutionStatus)
    : AssigneeValue :=
  match testCaseResolutionStatusDetails f with
  | Some d => assignee d
  | None => NoAssignee
  end.

(** [updatedAssignees.length]: reading a property of [undefined] throws,
    an entity reference has no such property. *)
Definition lengthOf (v : AssigneeValue) : M World Exn (option nat) :=
  match v with
  | NoAssignee =>
      throw (TypeError "Cannot read properties of undefined")
  | Selection items => ret (Some (length items))
  | Reference _ => ret None
  end.

(** [n > 0]; [undefined > 0] is false. *)
Definition positive (n : option nat) : bool :=
  match n with
  | Some (S _) => true
  | _ => false
  end.

(** The [required] rule of a form item: [undefined], the empty string
    and the empty array count as missing. *)
Definition missingText (v : option string) : bool :=
  match v with
  | None | Some EmptyString => true
  | Some _ => false
  end.

Definition missingAssignee (v : AssigneeValue) : bool :=
  match v with
  | NoAssignee | Selection [] => true
  | Selection (_ :: _) | Reference _ => false
  end.

(** The form items that are rendered and fail their [required] rule. *)
Definition validateFields (f : CreateTestCaseResolutionStatus)
    : list string :=
  let statusType := testCaseResolutionStatusType f in
  let details := spread (testCaseResolutionStatusDetails f) in
  (if statusType is None then ["testCaseResolutionStatusType"] else [])
  ++ (if bool_decide (statusType = Some Resolved) then
        (if missingText (testCaseFailureReason details)
         then ["testCaseFailureReason"] else [])
        ++ (if missingText (testCaseFailureComment details)
            then ["testCaseFailureComment"] else [])
      else [])
  ++ (if bool_decide (statusType = Some Assigned) then
        (if missingAssignee (assignee details) then ["assignee"] else [])
      else []).

(** The values [onFinish] receives: those of the items that are rendered.
    The status item always is; the reason and the comment are rendered for
    the status Resolved only, the assignee for the status Assigned only;
    [resolvedBy] and [testCaseReference] are items of no status.  What the
    form holds for an item that is not rendered stays behind. *)
Definition renderedValues (store : CreateTestCaseResolutionStatus)
    : CreateTestCaseResolutionStatus :=
  let statusType := testCaseResolutionStatusType store in
  let held := spread (testCaseResolutionStatusDetails store) in
  {| testCaseResolutionStatusType := statusType;
     testCaseResolutionStatusDetails :=
       if bool_decide (statusType = Some Resolved) then
         Some {| testCaseFailureReason := testCaseFailureReason held;
                 testCaseFailureComment := testCaseFailureComment held;
                 resolvedBy := None;
                 assignee := NoAssignee |}
       else if bool_decide (statusType = Some Assigned) then
         Some {| testCaseFailureReason := None;
                 testCaseFailureComment := None;
                 resolvedBy := None;
                 assignee := assignee held |}
       else None;
     testCaseReference := None |}.

(** Truthiness: [undefined] is falsy, every array and object is truthy. *)
Definition truthy (v : AssigneeValue) : bool :=
  match v with
  | NoAssignee => false
  | Selection _ | Reference _ => true
  end.

(** The effect run on mount and whenever [data] changes. *)
Definition prepopulate (data : option CreateTestCaseResolutionStatus)
    (f : CreateTestCaseResolutionStatus) : CreateTestCaseResolutionStatus :=
  let assignee' :=
    match data ≫= testCaseResolutionStatusDetails with
    | Some d => assignee d
    | None => NoAssignee
    end in
  if bool_decide (data ≫= testCaseResolutionStatusType = Some Assigned)
     && truthy assignee'
  then
    let d := spread (testCaseResolutionStatusDetails f) in
    {| testCaseResolutionStatusType := testCaseResolutionStatusType f;
       testCaseResolutionStatusDetails :=
         Some {| testCaseFailureReason := testCaseFailureReason d;
                 testCaseFailureComment := testCaseFailureComment d;
                 resolvedBy := resolvedBy d;
                 assignee := assignee' |};
       testCaseReference := testCaseReference f |}
  else f.

(** The requests sent to the server so far. *)
Definition requests (w : World) : list CreateTestCaseResolutionStatus :=
  omap (λ ev, match ev with Posted request => Some request | _ => None end)
       (events w).

Section Component.
(** The signed-in user of the application store; the helper that turns
    an entity into a reference lives in [utils/EntityUtils]. *)
Variable User : Type.
Variable getEntityReferenceFromEntity : User → EntityType → EntityReference.
Variable currentUser : option User.
(** [Object.values(TestCaseResolutionStatusTypes)] *)
Variable statusTypeValues : list TestCaseResolutionStatusTypes.
(** The [testCaseFqn] prop. *)
Variable testCaseFqn : string.
(** The REST call: what the server answers to a request. *)
Variable postTestCaseIncidentStatus :
  CreateTestCaseResolutionStatus →
  Outcome Exn CreateTestCaseResolutionStatus.

Definition statusOptions (data : option CreateTestCaseResolutionStatus)
    : list SelectOption :=
  let status :=
    if bool_decide (data ≫= testCaseResolutionStatusType = Some Assigned)
    then [Assigned; Resolved]
    else statusTypeValues in
  (λ value, {| label := value; value := value |}) <$> status.

Definition post (request : CreateTestCaseResolutionStatus)
    : M World Exn CreateTestCaseResolutionStatus :=
  (emit (Posted request) ;;
   λ w, (postTestCaseIncidentStatus request, w))%eff.

Definition handleFormSubmit (data : CreateTestCaseResolutionStatus)
    : M World Exn unit :=
  (setIsLoading true ;;
   updatedAssignees <- gets (λ w, watchAssignee (form w)) ;;
   let updatedData :=
     {| testCaseResolutionStatusType := testCaseResolutionStatusType data;
        testCaseResolutionStatusDetails :=
          testCaseResolutionStatusDetails data;
        testCaseReference := Some testCaseFqn |} in
   let withDetails (details : StatusDetails) :=
     {| testCaseResolutionStatusType :=
          testCaseResolutionStatusType updatedData;
        testCaseResolutionStatusDetails := Some details;
        testCaseReference := testCaseReference updatedData |} in
   let previous := spread (testCaseResolutionStatusDetails data) in
   updatedData <-
     match testCaseResolutionStatusType data with
     | Some Resolved =>
         ret (withDetails
           {| testCaseFailureReason := testCaseFailureReason previous;
              testCaseFailureComment := testCaseFailureComment previous;
              resolvedBy :=
                (λ u, getEntityReferenceFromEntity u USER) <$> currentUser;
              assignee := assignee previous |})
     | Some Assigned =>
         len <- lengthOf updatedAssignees ;;
         if positive len then
           match updatedAssignees with
           | Selection (first :: _) =>
               ret (withDetails
                 {| testCaseFailureReason :=
                      testCaseFailureReason previous;
                    testCaseFailureComment :=
                      testCaseFailureComment previous;
                    resolvedBy := resolvedBy previous;
                    assignee :=
                      Reference
                        {| ref_id := opt_value first;
                           ref_type := USER;
                           ref_name := opt_name first;
                           ref_displayName := opt_displayName first |} |})
           | _ => ret updatedData
           end
         else ret updatedData
     | _ => ret updatedData
     end ;;
   try_finally
     (try_catch
        (data <- post updatedData ;;
         onSubmit data ;;
         onCancel)
        (λ error, showErrorToast error))
     (setIsLoading false))%eff.

(** Pressing the modal's submit button: the form validates its rendered
    items and, only when none fails, calls [onFinish] with the values of
    the rendered items. *)
Definition submit : M World Exn unit :=
  (store <- gets form ;;
   match validateFields store with
   | [] => handleFormSubmit (renderedValues store)
   | _ :: _ => ret tt
   end)%eff.

(** The world right after the modal is mounted with [data]. *)
Definition mounted (data : option CreateTestCaseResolutionStatus) : World :=
  let initialValues :=
    default {| testCaseResolutionStatusType := None;
               testCaseResolutionStatusDetails := None;
               testCaseReference := None |} data in
  {| isLoading := false;
     form := prepopulate data initialValues;
     events := [] |}.

End Component.

End TestCaseStatusModal.

(** ** The user-creation form: [CreateUser.component.tsx] *)

Module CreateUser.
Import Eff.

(** Enums of the generated API types; members the component does not
    name are kept by their tag. *)
Inductive CreatePasswordGenerator : Type :=
| AutomatciGenerate
| CreatePassword.

Inductive CreatePasswordType : Type :=
| Admincreate
| OtherPasswordType (tag : string).

Inductive AuthType : Type :=
| Jwt
| Sso
| OtherAuthType (tag : string).

Inductive JWTTokenExpiry : Type :=
| OneHour
| OtherExpiry (tag : string).

Inductive SsoServiceType : Type :=
| Google
| Auth0
| Azure
| Okta
| CustomOidc
| OtherProvider (tag : string).

#[global] Instance CreatePasswordGenerator_eq_dec :
  EqDecision CreatePasswordGenerator.
Proof. solve_decision. Defined.

#[global] Instance AuthType_eq_dec : EqDecision AuthType.
Proof. solve_decision. Defined.

#[global] Instance SsoServiceType_eq_dec : EqDecision SsoServiceType.
Proof. solve_decision. Defined.

(** A value of the SSO client configuration: text, or the list that
    [scopes] is split into. *)
Inductive ConfigValue : Type :=
| Text (s : string)
| TextList (l : list string).

(** [authenticationMechanism.config]: either [{ JWTTokenExpiry }] or
    [{ ssoServiceType, authConfig }]. *)
Inductive AuthenticationConfig : Type :=
| JwtConfig (JWTTokenExpiry : JWTTokenExpiry)
| SsoConfig (ssoServiceType : option SsoServiceType)
            (authConfig : gmap string ConfigValue).


Record AuthenticationMechanism : Type := {
  authType : AuthType;
  config : AuthenticationConfig;
}.

(** The payload handed to [onSave] ([CreateUserSchema]). *)
Record CreateUserSchema : Type := {
  user_description : option string;
  user_name : option string;
  user_displayName : string;
  user_roles : option (list string);
  user_teams : option (list string);
  user_email : string;
  user_isAdmin : bool;
  user_isBot : bool;
  user_password : string;
  user_confirmPassword : string;
  user_createPasswordType : CreatePasswordType;
  user_authenticationMechanism : option AuthenticationMechanism;
}.

(** The [useState] slots of the component, the content of the rich-text
    editor behind [markdownRef] ([None] while it is not mounted), and the
    values the form keeps for its items ([fields]). *)
Record State : Type := {
  email : string;
  displayName : string;
  isAdmin : bool;
  isBot : bool;
  selectedRoles : list (option string);
  selectedTeams : list (option string);
  password : string;
  confirmPassword : string;
  passwordGenerator : CreatePasswordGenerator;
  generatedPassword : string;
  isPasswordGenerating : bool;
  authMechanism : AuthType;
  tokenExpiry : JWTTokenExpiry;
  ssoClientConfig : gmap string ConfigValue;
  editorContent : option string;
  fields : gmap string string;
}.

(** One setter per slot. *)
Definition setEmail (v : string) (st : State) : State :=
  {| email := v; displayName := displayName st; isAdmin := isAdmin st;
     isBot := isBot st; selectedRoles := selectedRoles st;
     selectedTeams := selectedTeams st; password := password st;
     confirmPassword := confirmPassword st;
     passwordGenerator := passwordGenerator st;
     generatedPassword := generatedPassword st;
     isPasswordGenerating := isPasswordGenerating st;
     authMechanism := authMechanism st; tokenExpiry := tokenExpiry st;
     ssoClientConfig := ssoClientConfig st;
     editorContent := editorContent st; fields := fields st |}.

Definition setDisplayName (v : string) (st : State) : State :=
  {| email := email st; displayName := v; isAdmin := isAdmin st;
     isBot := isBot st; selectedRoles := selectedRoles st;
     selectedTeams := selectedTeams st; password := password st;
     confirmPassword := confirmPassword st;
     passwordGenerator := passwordGenerator st;
     generatedPassword := generatedPassword st;
     isPasswordGenerating := isPasswordGenerating st;
     authMechanism := authMechanism st; tokenExpiry := tokenExpiry st;
     ssoClientConfig := ssoClientConfig st;
     editorContent := editorContent st; fields := fields st |}.

Definition setIsAdmin (f : bool → bool) (st : State) : State :=
  {| email := email st; displayName := displayName st;
     isAdmin := f (isAdmin st);
     isBot := isBot st; selectedRoles := selectedRoles st;
     selectedTeams := selectedTeams st; password := password st;
     confirmPassword := confirmPassword st;
     passwordGenerator := passwordGenerator st;
     generatedPassword := generatedPassword st;
     isPasswordGenerating := isPasswordGenerating st;
     authMechanism := authMechanism st; tokenExpiry := tokenExpiry st;
     ssoClientConfig := ssoClientConfig st;
     editorContent := editorContent st; fields := fields st |}.

Definition setIsBot (v : bool) (st : State) : State :=
  {| email := email st; displayName := displayName st; isAdmin := isAdmin st;
     isBot := v; selectedRoles := selectedRoles st;
     selectedTeams := selectedTeams st; password := password st;
     confirmPassword := confirmPassword st;
     passwordGenerator := passwordGenerator st;
     generatedPassword := generatedPassword st;
     isPasswordGenerating := isPasswordGenerating st;
     authMechanism := authMechanism st; tokenExpiry := tokenExpiry st;
     ssoClientConfig := ssoClientConfig st;
     editorContent := editorContent st; fields := fields st |}.

Definition setSelectedRoles
    (f : list (option string) → list (option string)) (st : State) : State :=
  {| email := email st; displayName := displayName st; isAdmin := isAdmin st;
     isBot := isBot st; selectedRoles := f (selectedRoles st);
     selectedTeams := selectedTeams st; password := password st;
     confirmPassword := confirmPassword st;
     passwordGenerator := passwordGenerator st;
     generatedPassword := generatedPassword st;
     isPasswordGenerating := isPasswordGenerating st;
     authMechanism := authMechanism st; tokenExpiry := tokenExpiry st;
     ssoClientConfig := ssoClientConfig st;
     editorContent := editorContent st; fields := fields st |}.

Definition setSelectedTeams (v : list (option string)) (st : State) : State :=
  {| email := email st; displayName := displayName st; isAdmin := isAdmin st;
     isBot := isBot st; selectedRoles := selectedRoles st;
     selectedTeams := v; password := password st;
     confirmPassword := confirmPassword st;
     passwordGenerator := passwordGenerator st;
     generatedPassword := generatedPassword st;
     isPasswordGenerating := isPasswordGenerating st;
     authMechanism := authMechanism st; tokenExpiry := tokenExpiry st;
     ssoClientConfig := ssoClientConfig st;
     editorContent := editorContent st; fields := fields st |}.

Definition setPassword (v : string) (st : State) : State :=
  {| email := email st; displayName := displayName st; isAdmin := isAdmin st;
     isBot := isBot st; selectedRoles := selectedRoles st;
     selectedTeams := selectedTeams st; password := v;
     confirmPassword := confirmPassword st;
     passwordGenerator := passwordGenerator st;
     generatedPassword := generatedPassword st;
     isPasswordGenerating := isPasswordGenerating st;
     authMechanism := authMechanism st; tokenExpiry := tokenExpiry st;
     ssoClientConfig := ssoClientConfig st;
     editorContent := editorContent st; fields := fields st |}.

Definition setConfirmPassword (v : string) (st : State) : State :=
  {| email := email st; displayName := displayName st; isAdmin := isAdmin st;
     isBot := isBot st; selectedRoles := selectedRoles st;
     selectedTeams := selectedTeams st; password := password st;
     confirmPassword := v;
     passwordGenerator := passwordGenerator st;
     generatedPassword := generatedPassword st;
     isPasswordGenerating := isPasswordGenerating st;
     authMechanism := authMechanism st; tokenExpiry := tokenExpiry st;
     ssoClientConfig := ssoClientConfig st;
     editorContent := editorContent st; fields := fields st |}.

Definition setPasswordGenerator (v : CreatePasswordGenerator) (st : State)
    : State :=
  {| email := email st; displayName := displayName st; isAdmin := isAdmin st;
     isBot := isBot st; selectedRoles := selectedRoles st;
     selectedTeams := selectedTeams st; password := password st;
     confirmPassword := confirmPassword st;
     passwordGenerator := v;
     generatedPassword := generatedPassword st;
     isPasswordGenerating := isPasswordGenerating st;
     authMechanism := authMechanism st; tokenExpiry := tokenExpiry st;
     ssoClientConfig := ssoClientConfig st;
     editorContent := editorContent st; fields := fields st |}.

Definition setGeneratedPassword (v : string) (st : State) : State :=
  {| email := email st; displayName := displayName st; isAdmin := isAdmin st;
     isBot := isBot st; selectedRoles := selectedRoles st;
     selectedTeams := selectedTeams st; password := password st;
     confirmPassword := confirmPassword st;
     passwordGenerator := passwordGenerator st;
     generatedPassword := v;
     isPasswordGenerating := isPasswordGenerating st;
     authMechanism := authMechanism st; tokenExpiry := tokenExpiry st;
     ssoClientConfig := ssoClientConfig st;
     editorContent := editorContent st; fields := fields st |}.

Definition setIsPasswordGenerating (v : bool) (st : State) : State :=
  {| email := email st; displayName := displayName st; isAdmin := isAdmin st;
     isBot := isBot st; selectedRoles := selectedRoles st;
     selectedTeams := selectedTeams st; password := password st;
     confirmPassword := confirmPassword st;
     passwordGenerator := passwordGenerator st;
     generatedPassword := generatedPassword st;
     isPasswordGenerating := v;
     authMechanism := authMechanism st; tokenExpiry := tokenExpiry st;
     ssoClientConfig := ssoClientConfig st;
     editorContent := editorContent st; fields := fields st |}.

Definition setAuthMechanism (v : AuthType) (st : State) : State :=
  {| email := email st; displayName := displayName st; isAdmin := isAdmin st;
     isBot := isBot st; selectedRoles := selectedRoles st;
     selectedTeams := selectedTeams st; password := password st;
     confirmPassword := confirmPassword st;
     passwordGenerator := passwordGenerator st;
     generatedPassword := generatedPassword st;
     isPasswordGenerating := isPasswordGenerating st;
     authMechanism := v; tokenExpiry := tokenExpiry st;
     ssoClientConfig := ssoClientConfig st;
     editorContent := editorContent st; fields := fields st |}.

Definition setTokenExpiry (v : JWTTokenExpiry) (st : State) : State :=
  {| email := email st; displayName := displayName st; isAdmin := isAdmin st;
     isBot := isBot st; selectedRoles := selectedRoles st;
     selectedTeams := selectedTeams st; password := password st;
     confirmPassword := confirmPassword st;
     passwordGenerator := passwordGenerator st;
     generatedPassword := generatedPassword st;
     isPasswordGenerating := isPasswordGenerating st;
     authMechanism := authMechanism st; tokenExpiry := v;
     ssoClientConfig := ssoClientConfig st;
     editorContent := editorContent st; fields := fields st |}.

Definition setSSOClientConfig
    (f : gmap string ConfigValue → gmap string ConfigValue) (st : State)
    : State :=
  {| email := email st; displayName := displayName st; isAdmin := isAdmin st;
     isBot := isBot st; selectedRoles := selectedRoles st;
     selectedTeams := selectedTeams st; password := password st;
     confirmPassword := confirmPassword st;
     passwordGenerator := passwordGenerator st;
     generatedPassword := generatedPassword st;
     isPasswordGenerating := isPasswordGenerating st;
     authMechanism := authMechanism st; tokenExpiry := tokenExpiry st;
     ssoClientConfig := f (ssoClientConfig st);
     editorContent := editorContent st; fields := fields st |}.

(** [form.setFieldsValue({ [name]: v })], and what a form item does with
    the change of the control it wraps. *)
Definition setFieldsValue (name v : string) (st : State) : State :=
  {| email := email st; displayName := displayName st; isAdmin := isAdmin st;
     isBot := isBot st; selectedRoles := selectedRoles st;
     selectedTeams := selectedTeams st; password := password st;
     confirmPassword := confirmPassword st;
     passwordGenerator := passwordGenerator st;
     generatedPassword := generatedPassword st;
     isPasswordGenerating := isPasswordGenerating st;
     authMechanism := authMechanism st; tokenExpiry := tokenExpiry st;
     ssoClientConfig := ssoClientConfig st;
     editorContent := editorContent st;
     fields := <[name := v]> (fields st) |}.

(** The two kinds of event [handleOnChange] accepts: the change of a text
    input, and the change of the password-mode radio group. *)
Inductive ChangeEvent : Type :=
| InputChange (name value : string)
| RadioChange (name : string) (value : CreatePasswordGenerator).

Definition handleOnChange (event : ChangeEvent) (st : State) : State :=
  match event with
  | InputChange eleName value =>
      if String.eqb eleName "email" then setEmail value st
      else if String.eqb eleName "displayName" then setDisplayName value st
      else if String.eqb eleName "secretKey" then
        setSSOClientConfig (λ previous, <["secretKey" := Text value]> previous) st
      else if String.eqb eleName "audience" then
        setSSOClientConfig (λ previous, <["audience" := Text value]> previous) st
      else if String.eqb eleName "clientId" then
        setSSOClientConfig (λ previous, <["clientId" := Text value]> previous) st
      else if String.eqb eleName "domain" then
        setSSOClientConfig (λ previous, <["domain" := Text value]> previous) st
      else if String.eqb eleName "clientSecret" then
        setSSOClientConfig
          (λ previous, <["clientSecret" := Text value]> previous) st
      else if String.eqb eleName "authority" then
        setSSOClientConfig (λ previous, <["authority" := Text value]> previous) st
      else if String.eqb eleName "scopes" then
        setSSOClientConfig
          (λ previous,
             <["scopes" := TextList (if String.eqb value EmptyString then []
                                     else Js.split "," value)]> previous) st
      else if String.eqb eleName "privateKey" then
        setSSOClientConfig (λ previous, <["privateKey" := Text value]> previous) st
      else if String.eqb eleName "orgURL" then
        setSSOClientConfig (λ previous, <["orgURL" := Text value]> previous) st
      else if String.eqb eleName "oktaEmail" then
        setSSOClientConfig (λ previous, <["email" := Text value]> previous) st
      else if String.eqb eleName "tokenEndpoint" then
        setSSOClientConfig
          (λ previous, <["tokenEndpoint" := Text value]> previous) st
      else if String.eqb eleName "password" then setPassword value st
      else if String.eqb eleName "confirmPassword" then
        setConfirmPassword value st
      else st
  | RadioChange eleName value =>
      if String.eqb eleName "passwordGenerator" then
        setPasswordGenerator value st
      else st
  end.

(** The text inputs of the credential forms, read off [handleOnChange]: the
    key of the SSO client configuration an input feeds, and the value it
    stores there. *)
Definition configKey (name : string) : option string :=
  if String.eqb name "secretKey" then Some "secretKey"
  else if String.eqb name "audience" then Some "audience"
  else if String.eqb name "clientId" then Some "clientId"
  else if String.eqb name "domain" then Some "domain"
  else if String.eqb name "clientSecret" then Some "clientSecret"
  else if String.eqb name "authority" then Some "authority"
  else if String.eqb name "scopes" then Some "scopes"
  else if String.eqb name "privateKey" then Some "privateKey"
  else if String.eqb name "orgURL" then Some "orgURL"
  else if String.eqb name "oktaEmail" then Some "email"
  else if String.eqb name "tokenEndpoint" then Some "tokenEndpoint"
  else None.

Definition configValue (name value : string) : ConfigValue :=
  if String.eqb name "scopes" then
    TextList (if String.eqb value EmptyString then [] else Js.split "," value)
  else Text value.

(** [selectedRolesHandler] is the updater passed to [setSelectedRoles];
    a role id may be [undefined], hence [option string]. *)
Definition selectedRolesHandler (id : option string)
    (prevState : list (option string)) : list (option string) :=
  if Js.includes prevState id then
    let selectedRole := prevState in
    let index := Js.indexOf selectedRole id in
    Js.splice selectedRole index 1
  else prevState ++ [id].

(** The role selection after a sequence of clicks in the roles dropdown,
    starting from [useState([])]. *)
Definition roleSelectionAfter (clicks : list (option string))
    : list (option string) :=
  foldl (λ prev id, selectedRolesHandler id prev) [] clicks.

(** [ids.filter((id) => !isUndefined(id))] *)
Definition definedIds (ids : list (option string)) : list string :=
  omap (λ id, id) ids.

(** [xs.length ? xs : undefined] *)
Definition nonEmpty (xs : list string) : option (list string) :=
  match xs with
  | [] => None
  | _ :: _ => Some xs
  end.

(** What the user does to the form.  Every text input sits in a form item
    of the same name, so typing updates the form's value of the item and
    calls [handleOnChange]. *)
Inductive UiEvent : Type :=
| Typed (name value : string)
| PasswordMode (value : CreatePasswordGenerator)
| AuthMechanismChosen (value : AuthType)
| TokenExpiryChosen (value : JWTTokenExpiry)
| RoleClicked (id : option string)
| TeamsChanged (ids : list (option string))
| AdminSwitched
| EditorEdited (content : string).

Definition setEditorContent (v : option string) (st : State) : State :=
  {| email := email st; displayName := displayName st; isAdmin := isAdmin st;
     isBot := isBot st; selectedRoles := selectedRoles st;
     selectedTeams := selectedTeams st; password := password st;
     confirmPassword := confirmPassword st;
     passwordGenerator := passwordGenerator st;
     generatedPassword := generatedPassword st;
     isPasswordGenerating := isPasswordGenerating st;
     authMechanism := authMechanism st; tokenExpiry := tokenExpiry st;
     ssoClientConfig := ssoClientConfig st;
     editorContent := v; fields := fields st |}.

Definition step (st : State) (ev : UiEvent) : State :=
  match ev with
  | Typed name value =>
      handleOnChange (InputChange name value) (setFieldsValue name value st)
  | PasswordMode value =>
      handleOnChange (RadioChange "passwordGenerator" value) st
  | AuthMechanismChosen value => setAuthMechanism value st
  | TokenExpiryChosen value => setTokenExpiry value st
  | RoleClicked id => setSelectedRoles (selectedRolesHandler id) st
  | TeamsChanged ids => setSelectedTeams ids st
  | AdminSwitched => setIsBot false (setIsAdmin negb st)
  | EditorEdited content => setEditorContent (Some content) st
  end.

Definition run (st : State) (evs : list UiEvent) : State := foldl step st evs.

(** Failures of the rules of a form item. *)
Inductive RuleFailure : Type :=
| Missing
| NotAnEmail
| PatternMismatch
| Rejected (reason : string).

#[global] Instance RuleFailure_eq_dec : EqDecision RuleFailure.
Proof. solve_decision. Defined.

(** The [required] rule: [undefined] and the empty string are missing. *)
Definition isEmptyValue (v : option string) : bool :=
  match v with
  | None | Some EmptyString => true
  | Some _ => false
  end.

Definition required (name : string) (v : option string)
    : list (string * RuleFailure) :=
  if isEmptyValue v then [(name, Missing)] else [].

(** The validator of the confirmation item: [value !== password], where
    [value] is the form's value of the item ([undefined] until the user
    types in it) and [password] the state slot. *)
Definition confirmPasswordValidator (password : string)
    (value : option string) : Outcome string unit :=
  if negb (bool_decide (value = Some password))
  then Thrown "Password doesn't match"
  else Returned tt.

Definition validator (name : string) (result : Outcome string unit)
    : list (string * RuleFailure) :=
  match result with
  | Returned _ => []
  | Thrown reason => [(name, Rejected reason)]
  end.

(** The items of the provider's credential form that carry a [required]
    rule, as rendered by [getSSOConfig]. *)
Definition ssoRequiredItems (provider : option SsoServiceType) : list string :=
  match provider with
  | Some Google => ["secretKey"]
  | Some Auth0 => ["secretKey"; "clientId"; "domain"]
  | Some Azure => ["clientSecret"; "clientId"; "authority"; "scopes"]
  | Some Okta => ["privateKey"; "clientId"; "orgURL"; "oktaEmail"]
  | Some CustomOidc => ["secretKey"; "clientId"; "tokenEndpoint"]
  | Some (OtherProvider _) | None => []
  end.

Section Component.
(** The [forceBot] prop and the provider of the authentication context
    ([authConfig?.provider]). *)
Variable forceBot : bool.
Variable provider : option SsoServiceType.
(** The form library's check behind [type: 'email']. *)
Variable isEmail : string → bool.

(** The state of a freshly mounted form. *)
Definition initialState : State :=
  {| email := EmptyString; displayName := EmptyString; isAdmin := false; isBot := forceBot;
     selectedRoles := []; selectedTeams := [];
     password := EmptyString; confirmPassword := EmptyString;
     passwordGenerator := AutomatciGenerate;
     generatedPassword := EmptyString; isPasswordGenerating := false;
     authMechanism := Jwt; tokenExpiry := OneHour;
     ssoClientConfig := ∅; editorContent := None; fields := ∅ |}.

(** [type: 'email'] on a present value. *)
Definition emailType (name : string) (v : option string)
    : list (string * RuleFailure) :=
  match v with
  | Some s => if isEmptyValue v || isEmail s then [] else [(name, NotAnEmail)]
  | None => []
  end.

(** The [required] and [type] rules of the items the form renders, in
    rendering order.  The email item has two rules, both of type email: the
    first is [required] too; the second names the pattern
    [validEmailRegEx], which the form library does not consult for a rule
    of type email, so that rule is the type check again.  The validators
    of the two bot selects reject a falsy selection only, which no member
    of their enum is. *)
Definition fieldRuleErrors (st : State) : list (string * RuleFailure) :=
  let v name := fields st !! name in
  (required "email" (v "email") ++ emailType "email" (v "email"))
  ++ emailType "email" (v "email")
  ++ (if forceBot then
        if bool_decide (authMechanism st = Sso) then
          (flat_map (λ name, required name (v name))
                    (ssoRequiredItems provider))
          ++ (if bool_decide (provider = Some Okta)
              then emailType "oktaEmail" (v "oktaEmail") else [])
        else []
      else [])
  ++ (if bool_decide (passwordGenerator st = CreatePassword) then
        required "password" (v "password")
        ++ required "confirmPassword" (v "confirmPassword")
      else required "generatedPassword" (v "generatedPassword")).

(** All failures of a validation run: the rules above, then the validator
    of the confirmation item, which is rendered in manual mode only and is
    the last rule of the form. *)
Definition formErrors (st : State) : list (string * RuleFailure) :=
  fieldRuleErrors st
  ++ (if bool_decide (passwordGenerator st = CreatePassword) then
        validator "confirmPassword"
          (confirmPasswordValidator (password st)
             (fields st !! "confirmPassword"))
      else []).

(** The form submit handler; its result is the argument of [onSave]. *)
Definition handleSave (st : State) : CreateUserSchema :=
  let isPasswordGenerated :=
    bool_decide (passwordGenerator st = AutomatciGenerate) in
  let validRole := definedIds (selectedRoles st) in
  let validTeam := definedIds (selectedTeams st) in
  {| user_description :=
       match editorContent st with
       | Some content => if String.eqb content EmptyString then None else Some content
       | None => None
       end;
     user_name := head (Js.split "@" (email st));
     user_displayName := displayName st;
     user_roles := nonEmpty validRole;
     user_teams := nonEmpty validTeam;
     user_email := email st;
     user_isAdmin := isAdmin st;
     user_isBot := isBot st;
     user_password :=
       if isPasswordGenerated then generatedPassword st else password st;
     user_confirmPassword :=
       if isPasswordGenerated then generatedPassword st
       else confirmPassword st;
     user_createPasswordType := Admincreate;
     user_authenticationMechanism :=
       if forceBot then
         Some {| authType := authMechanism st;
                 config :=
                   if bool_decide (authMechanism st = Jwt)
                   then JwtConfig (tokenExpiry st)
                   else SsoConfig provider (ssoClientConfig st) |}
       else None |}.

(** Pressing Create: [onFinish] (that is [handleSave], which calls
    [onSave]) runs only when no rule fails.  The result lists the calls
    of [onSave]. *)
Definition submitForm (st : State) : list CreateUserSchema :=
  match formErrors st with
  | [] => [handleSave st]
  | _ :: _ => []
  end.

End Component.

(** The name of a new user in the words of the specification: the part of
    the email before its first ['@'], the whole email when it has none. *)
Fixpoint beforeFirst (c : ascii) (s : string) : string :=
  match s with
  | EmptyString => EmptyString
  | String a rest =>
      if bool_decide (a = c) then EmptyString
      else String a (beforeFirst c rest)
  end.

(** *** Generating a password *)

(** A callback handed to [setTimeout]. *)
Inductive TimerCallback : Type :=
| StoreGeneratedPassword (password : string).

Inductive Exn : Type :=
| AxiosError (message : string).

Record World : Type := {
  state : State;
  timers : list (nat * TimerCallback);
  toasts : list Exn;
}.

Definition update (f : State → State) : M World Exn unit :=
  modify (λ w, {| state := f (state w); timers := timers w;
                  toasts := toasts w |}).

(** [setTimeout(callback, delay)], [delay] in milliseconds. *)
Definition setTimeout (callback : TimerCallback) (delay : nat)
    : M World Exn unit :=
  modify (λ w, {| state := state w;
                  timers := timers w ++ [(delay, callback)];
                  toasts := toasts w |}).

Definition showErrorToast (err : Exn) : M World Exn unit :=
  modify (λ w, {| state := state w; timers := timers w;
                  toasts := toasts w ++ [err] |}).

(** What a timer callback does when it fires. *)
Definition fire (callback : TimerCallback) (st : State) : State :=
  match callback with
  | StoreGeneratedPassword password =>
      setFieldsValue "generatedPassword" password
        (setGeneratedPassword password st)
  end.

Section GeneratePassword.
(** The answer of the password endpoint. *)
Variable generateRandomPwd : Outcome Exn string.

Definition generateRandomPassword : M World Exn unit :=
  (update (setIsPasswordGenerating true) ;;
   try_finally
     (try_catch
        (password <- (λ w, (generateRandomPwd, w)) ;;
         setTimeout (StoreGeneratedPassword password) 500)
        (λ err, showErrorToast err))
     (update (setIsPasswordGenerating false)))%eff.
End GeneratePassword.

(** *** The options of the roles dropdown *)

(** A role or a team as the form receives it, and the item the dropdown
    shows for it. *)
Record OptionSource : Type := {
  src_id : string;
  src_name : option string;
  src_displayName : option string;
}.

Record DropDownListItem : Type := {
  item_name : string;
  item_value : string;
}.

(** [a || b] on texts: [a], unless it is [undefined] or empty. *)
Definition orElse (a : option string) (b : string) : string :=
  match a with
  | Some EmptyString | None => b
  | Some text => text
  end.

Definition getDropdownOptions (data : list OptionSource)
    : list DropDownListItem :=
  (λ option,
     {| item_name :=
          orElse (src_displayName option)
                 (orElse (src_name option) EmptyString);
        item_value := src_id option |}) <$> data.

End CreateUser.

(** ** Concrete data for the scenarios *)

Module Scenario.
Import Eff.

(** *** Status modal *)

(** A user of the application store, and a reading of the helper that turns
    it into a reference. *)
Record User : Type := { login : string; fullName : string }.

Definition getEntityReferenceFromEntity (u : User)
    (type : TestCaseStatusModal.EntityType)
    : TestCaseStatusModal.EntityReference :=
  {| TestCaseStatusModal.ref_id := Some (login u);
     TestCaseStatusModal.ref_type := type;
     TestCaseStatusModal.ref_name := Some (login u);
     TestCaseStatusModal.ref_displayName := Some (fullName u) |}.

Definition alice : User := {| login := "alice"; fullName := "Alice A." |}.

Definition statusTypeValues
    : list TestCaseStatusModal.TestCaseResolutionStatusTypes :=
  [TestCaseStatusModal.OtherStatus "Ack"; TestCaseStatusModal.Assigned;
   TestCaseStatusModal.OtherStatus "InProgress";
   TestCaseStatusModal.OtherStatus "New"; TestCaseStatusModal.Resolved].

Definition testCaseFqn : string := "sample_data.orders.row_count".

(** A server that stores the request and answers with it, and one that is
    unreachable. *)
Definition accepting (request : TestCaseStatusModal.CreateTestCaseResolutionStatus)
    : Outcome TestCaseStatusModal.Exn
        TestCaseStatusModal.CreateTestCaseResolutionStatus :=
  Returned request.

Definition unreachable (request : TestCaseStatusModal.CreateTestCaseResolutionStatus)
    : Outcome TestCaseStatusModal.Exn
        TestCaseStatusModal.CreateTestCaseResolutionStatus :=
  Thrown (TestCaseStatusModal.AxiosError "Network Error").

(** An incident that is already assigned, to a team. *)
Definition dataQualityTeam : TestCaseStatusModal.EntityReference :=
  {| TestCaseStatusModal.ref_id := Some "7f3a";
     TestCaseStatusModal.ref_type := TestCaseStatusModal.OtherEntityType "team";
     TestCaseStatusModal.ref_name := Some "data-quality";
     TestCaseStatusModal.ref_displayName := Some "Data Quality" |}.

Definition assignedIncident
    : TestCaseStatusModal.CreateTestCaseResolutionStatus :=
  {| TestCaseStatusModal.testCaseResolutionStatusType :=
       Some TestCaseStatusModal.Assigned;
     TestCaseStatusModal.testCaseResolutionStatusDetails :=
       Some {| TestCaseStatusModal.testCaseFailureReason := None;
               TestCaseStatusModal.testCaseFailureComment := None;
               TestCaseStatusModal.resolvedBy := None;
               TestCaseStatusModal.assignee :=
                 TestCaseStatusModal.Reference dataQualityTeam |};
     TestCaseStatusModal.testCaseReference := None |}.

(** The form with one assignee picked, and with a resolution filled in. *)
Definition bob : TestCaseStatusModal.AssigneeOption :=
  {| TestCaseStatusModal.opt_value := Some "b0b";
     TestCaseStatusModal.opt_name := Some "bob";
     TestCaseStatusModal.opt_displayName := Some "Bob B." |}.

Definition assigning : TestCaseStatusModal.World :=
  {| TestCaseStatusModal.isLoading := false;
     TestCaseStatusModal.form :=
       {| TestCaseStatusModal.testCaseResolutionStatusType :=
            Some TestCaseStatusModal.Assigned;
          TestCaseStatusModal.testCaseResolutionStatusDetails :=
            Some {| TestCaseStatusModal.testCaseFailureReason := None;
                    TestCaseStatusModal.testCaseFailureComment := None;
                    TestCaseStatusModal.resolvedBy := None;
                    TestCaseStatusModal.assignee :=
                      TestCaseStatusModal.Selection [bob] |};
          TestCaseStatusModal.testCaseReference := None |};
     TestCaseStatusModal.events := [] |}.

Definition resolving : TestCaseStatusModal.World :=
  {| TestCaseStatusModal.isLoading := false;
     TestCaseStatusModal.form :=
       {| TestCaseStatusModal.testCaseResolutionStatusType :=
            Some TestCaseStatusModal.Resolved;
          TestCaseStatusModal.testCaseResolutionStatusDetails :=
            Some {| TestCaseStatusModal.testCaseFailureReason :=
                      Some "Duplicate";
                    TestCaseStatusModal.testCaseFailureComment :=
                      Some "dup of X";
                    TestCaseStatusModal.resolvedBy := None;
                    TestCaseStatusModal.assignee :=
                      TestCaseStatusModal.NoAssignee |};
          TestCaseStatusModal.testCaseReference := None |};
     TestCaseStatusModal.events := [] |}.

(** *** User form *)

(** A stand-in for the email checks of the form library. *)
Definition looksLikeEmail (s : string) : bool :=
  bool_decide ("@"%char ∈ list_ascii_of_string s).


(** Creating a user with a password typed by hand. *)
Definition manualPassword (confirmation : string) : list CreateUser.UiEvent :=
  [CreateUser.Typed "email" "carol@example.com";
   CreateUser.Typed "displayName" "Carol C.";
   CreateUser.PasswordMode CreateUser.CreatePassword;
   CreateUser.Typed "password" "Abc123!";
   CreateUser.Typed "confirmPassword" confirmation].

(** The form before a password is generated. *)
Definition idle : CreateUser.World :=
  {| CreateUser.state := CreateUser.initialState false;
     CreateUser.timers := [];
     CreateUser.toasts := [] |}.

(** *** Further data *)

(** The form of the status modal with a status that needs no details, and
    with the status Assigned before anybody is picked. *)
Definition acknowledging : TestCaseStatusModal.World :=
  {| TestCaseStatusModal.isLoading := false;
     TestCaseStatusModal.form :=
       {| TestCaseStatusModal.testCaseResolutionStatusType :=
            Some (TestCaseStatusModal.OtherStatus "Ack");
          TestCaseStatusModal.testCaseResolutionStatusDetails := None;
          TestCaseStatusModal.testCaseReference := None |};
     TestCaseStatusModal.events := [] |}.

Definition unassigned : TestCaseStatusModal.World :=
  {| TestCaseStatusModal.isLoading := false;
     TestCaseStatusModal.form :=
       {| TestCaseStatusModal.testCaseResolutionStatusType :=
            Some TestCaseStatusModal.Assigned;
          TestCaseStatusModal.testCaseResolutionStatusDetails := None;
          TestCaseStatusModal.testCaseReference := None |};
     TestCaseStatusModal.events := [] |}.


(** The password and its confirmation typed and erased again. *)
Definition erasedPassword : list CreateUser.UiEvent :=
  [CreateUser.Typed "email" "carol@example.com";
   CreateUser.PasswordMode CreateUser.CreatePassword;
   CreateUser.Typed "password" "Abc123!";
   CreateUser.Typed "confirmPassword" "Abc123!";
   CreateUser.Typed "password" EmptyString;
   CreateUser.Typed "confirmPassword" EmptyString].

(** An incident assigned to Bob that still carries an earlier comment. *)
Definition bobReference : TestCaseStatusModal.EntityReference :=
  {| TestCaseStatusModal.ref_id := Some "b0b";
     TestCaseStatusModal.ref_type := TestCaseStatusModal.USER;
     TestCaseStatusModal.ref_name := Some "bob";
     TestCaseStatusModal.ref_displayName := Some "Bob B." |}.

Definition commentedIncident
    : TestCaseStatusModal.CreateTestCaseResolutionStatus :=
  {| TestCaseStatusModal.testCaseResolutionStatusType :=
       Some TestCaseStatusModal.Assigned;
     TestCaseStatusModal.testCaseResolutionStatusDetails :=
       Some {| TestCaseStatusModal.testCaseFailureReason := Some "Other";
               TestCaseStatusModal.testCaseFailureComment :=
                 Some "looked at it last week";
               TestCaseStatusModal.resolvedBy := None;
               TestCaseStatusModal.assignee :=
                 TestCaseStatusModal.Reference bobReference |};
     TestCaseStatusModal.testCaseReference := Some "stale" |}.

End Scenario.

(** * Properties *)

(** ** Array primitives *)

Section ArrayFacts.
Context {A : Type} `{EqDecision A}.
Implicit Types (l : list A) (x : A).

Lemma indexOf_not_elem l x : x ∉ l → Js.indexOf l x = (-1)%Z.
Proof.
  induction l as [|y l IH]; intros Hx; simpl; [done|].
  apply not_elem_of_cons in Hx as [Hne Hl].
  rewrite bool_decide_eq_false_2 by congruence.
  by rewrite (IH Hl).
Qed.

Lemma indexOf_app_first l1 l2 x :
  x ∉ l1 → Js.indexOf (l1 ++ x :: l2) x = Z.of_nat (length l1).
Proof.
  induction l1 as [|y l1 IH]; intros Hx; simpl.
  - by rewrite bool_decide_eq_true_2.
  - apply not_elem_of_cons in Hx as [Hne Hl].
    rewrite bool_decide_eq_false_2 by congruence.
    rewrite (IH Hl).
    destruct (Z.ltb_spec (Z.of_nat (length l1)) 0); lia.
Qed.

Lemma splice_one_middle l1 l2 x :
  Js.splice (l1 ++ x :: l2) (Z.of_nat (length l1)) 1 = l1 ++ l2.
Proof.
  unfold Js.splice.
  destruct (Z.ltb_spec (Z.of_nat (length l1)) 0) as [?|_]; [lia|].
  rewrite length_app; simpl.
  replace (Z.to_nat (Z.min _ _)) with (length l1) by lia.
  rewrite take_app_length.
  replace (length l1 + 1) with (length l1 + 1 + 0) by lia.
  rewrite <- Nat.add_assoc, drop_app_add. done.
Qed.

Lemma first_occurrence l x :
  x ∈ l → ∃ l1 l2, l = l1 ++ x :: l2 ∧ x ∉ l1.
Proof.
  induction l as [|y l IH]; intros Hx; [by apply elem_of_nil in Hx|].
  destruct (decide (y = x)) as [->|Hne].
  - exists [], l. split; [done|]. apply not_elem_of_nil.
  - apply elem_of_cons in Hx as [->|Hx]; [done|].
    destruct (IH Hx) as (l1 & l2 & -> & Hl1).
    exists (y :: l1), l2. split; [done|].
    apply not_elem_of_cons. split; [congruence|done].
Qed.
End ArrayFacts.

(** ** Role selection *)

Section RoleSelection.
Import CreateUser.
Implicit Types (l : list (option string)) (id : option string).

Lemma selectedRolesHandler_absent l id :
  id ∉ l → selectedRolesHandler id l = l ++ [id].
Proof.
  intros Hid. unfold selectedRolesHandler, Js.includes.
  by rewrite bool_decide_eq_false_2.
Qed.

Lemma selectedRolesHandler_present l1 l2 id :
  id ∉ l1 → selectedRolesHandler id (l1 ++ id :: l2) = l1 ++ l2.
Proof.
  intros Hid. unfold selectedRolesHandler, Js.includes.
  rewrite bool_decide_eq_true_2 by set_solver.
  rewrite indexOf_app_first by done.
  apply splice_one_middle.
Qed.

Lemma selectedRolesHandler_NoDup l id :
  NoDup l → NoDup (selectedRolesHandler id l).
Proof.
  intros Hnd. destruct (decide (id ∈ l)) as [Hin|Hout].
  - destruct (first_occurrence l id Hin) as (l1 & l2 & -> & Hl1).
    rewrite selectedRolesHandler_present by done.
    apply NoDup_app in Hnd as (H1 & H12 & H2).
    apply NoDup_cons in H2 as [_ H2].
    apply NoDup_app. split_and!; [done| |done].
    intros y Hy1 Hy2. apply (H12 y Hy1). by right.
  - rewrite selectedRolesHandler_absent by done.
    apply NoDup_app. split_and!; [done| |apply NoDup_singleton].
    intros y Hy ->%list_elem_of_singleton. done.
Qed.

Lemma roleSelectionAfter_snoc clicks id :
  roleSelectionAfter (clicks ++ [id])
  = selectedRolesHandler id (roleSelectionAfter clicks).
Proof. unfold roleSelectionAfter. by rewrite foldl_app. Qed.

Lemma roleSelectionAfter_NoDup clicks : NoDup (roleSelectionAfter clicks).
Proof.
  induction clicks as [|id clicks IH] using rev_ind.
  - apply NoDup_nil_2.
  - rewrite roleSelectionAfter_snoc. by apply selectedRolesHandler_NoDup.
Qed.

Lemma selectedRolesHandler_twice_NoDup l id :
  NoDup l →
  selectedRolesHandler id (selectedRolesHandler id l) ≡ₚ l.
Proof.
  intros Hnd. destruct (decide (id ∈ l)) as [Hin|Hout].
  - destruct (first_occurrence l id Hin) as (l1 & l2 & -> & Hl1).
    rewrite selectedRolesHandler_present by done.
    apply NoDup_app in Hnd as (_ & H12 & H2).
    apply NoDup_cons in H2 as [Hl2 _].
    rewrite selectedRolesHandler_absent by (by apply not_elem_of_app).
    rewrite <- app_assoc. apply Permutation_app_head.
    symmetry. apply Permutation_cons_append.
  - rewrite (selectedRolesHandler_absent l id) by done.
    rewrite <- (app_nil_r (l ++ [id])) at 1.
    rewrite <- app_assoc. simpl.
    by rewrite selectedRolesHandler_present, app_nil_r.
Qed.

Lemma selectedRolesHandler_flips l id :
  NoDup l →
  Js.includes (selectedRolesHandler id l) id = negb (Js.includes l id).
Proof.
  intros Hnd. unfold Js.includes.
  destruct (decide (id ∈ l)) as [Hin|Hout].
  - rewrite (bool_decide_eq_true_2 (id ∈ l)) by done.
    destruct (first_occurrence l id Hin) as (l1 & l2 & -> & Hl1).
    rewrite selectedRolesHandler_present by done.
    apply NoDup_app in Hnd as (_ & H12 & H2).
    apply NoDup_cons in H2 as [Hl2 _].
    apply bool_decide_eq_false_2. by apply not_elem_of_app.
  - rewrite (bool_decide_eq_false_2 (id ∈ l)) by done.
    rewrite selectedRolesHandler_absent by done.
    apply bool_decide_eq_true_2. apply elem_of_app. right. by left.
Qed.

(** C7.  In every state the role selection can reach, clicking a role twice
    gives back the same set of selected roles: the result is a permutation
    of the selection before the two clicks, so it has the same members.
    One click removes the id when it is selected and adds it when not. *)
Theorem role_toggle_twice (clicks : list (option string)) (id : option string) :
  selectedRolesHandler id (selectedRolesHandler id (roleSelectionAfter clicks))
    ≡ₚ roleSelectionAfter clicks
  ∧ list_to_set
      (selectedRolesHandler id
         (selectedRolesHandler id (roleSelectionAfter clicks)))
    =@{gset (option string)} list_to_set (roleSelectionAfter clicks)
  ∧ Js.includes (selectedRolesHandler id (roleSelectionAfter clicks)) id
    = negb (Js.includes (roleSelectionAfter clicks) id).
Proof.
  pose proof (roleSelectionAfter_NoDup clicks) as Hnd.
  pose proof (selectedRolesHandler_twice_NoDup _ id Hnd) as Hperm.
  split_and!; [done| |by apply selectedRolesHandler_flips].
  apply set_eq. intros x. rewrite !elem_of_list_to_set. by rewrite Hperm.
Qed.

(** C10.  The role selection never holds an id twice: the selection reached
    from the empty one by any clicks has no duplicates, and so has the
    selection after one more click. *)
Theorem role_selection_NoDup (clicks : list (option string))
    (id : option string) :
  NoDup (roleSelectionAfter clicks)
  ∧ NoDup (selectedRolesHandler id (roleSelectionAfter clicks)).
Proof.
  split; [apply roleSelectionAfter_NoDup|].
  apply selectedRolesHandler_NoDup, roleSelectionAfter_NoDup.
Qed.

End RoleSelection.

(** ** The status modal *)

Section StatusModal.
Import Eff TestCaseStatusModal.

Variable User : Type.
Variable getEntityReferenceFromEntity : User → EntityType → EntityReference.
Variable currentUser : option User.
Variable statusTypeValues : list TestCaseResolutionStatusTypes.
Variable testCaseFqn : string.
Variable postTestCaseIncidentStatus :
  CreateTestCaseResolutionStatus → Outcome Exn CreateTestCaseResolutionStatus.

Local Abbreviation handleFormSubmit :=
  (handleFormSubmit User getEntityReferenceFromEntity currentUser
     testCaseFqn postTestCaseIncidentStatus).
Local Abbreviation submit :=
  (submit User getEntityReferenceFromEntity currentUser
     testCaseFqn postTestCaseIncidentStatus).

Ltac run_handler :=
  unfold TestCaseStatusModal.submit, TestCaseStatusModal.handleFormSubmit,
    post, onSubmit, onCancel, showErrorToast, emit, setIsLoading, lengthOf,
    try_finally, try_catch, bind, ret, gets, modify, throw;
  simpl.

(** Name the request that reaches the server and split on its answer. *)
Ltac sent :=
  match goal with
  | |- context [postTestCaseIncidentStatus ?request] =>
      exists request;
      destruct (postTestCaseIncidentStatus request) as [response|error];
      simpl; rewrite <- !app_assoc; reflexivity
  end.

(** C3.  The status options follow the prior status: when the existing
    status is Assigned the options are exactly Assigned and Resolved, and
    for any other prior status, or none, they are all the values of the
    status enum; the label of an option is its value. *)
Theorem statusOptions_by_prior_status
    (data : option CreateTestCaseResolutionStatus) :
  (data ≫= testCaseResolutionStatusType = Some Assigned →
   value <$> statusOptions statusTypeValues data = [Assigned; Resolved])
  ∧ (data ≫= testCaseResolutionStatusType ≠ Some Assigned →
     value <$> statusOptions statusTypeValues data = statusTypeValues)
  ∧ label <$> statusOptions statusTypeValues data
    = value <$> statusOptions statusTypeValues data.
Proof.
  unfold statusOptions. split_and!.
  - intros Hprior. by rewrite bool_decide_eq_true_2.
  - intros Hprior. rewrite bool_decide_eq_false_2 by done.
    rewrite <- list_fmap_compose. apply list_fmap_id.
  - by rewrite <- !list_fmap_compose.
Qed.

(** C2.  Submitting the values of a Resolved status with failure reason [r]
    and comment [c] sends one request whose details carry [r], [c] and, as
    [resolvedBy], the reference made from the current user with entity
    type USER. *)
Theorem resolved_request (data : CreateTestCaseResolutionStatus)
    (details : StatusDetails) (r c : string) (w : World) :
  testCaseResolutionStatusType data = Some Resolved →
  testCaseResolutionStatusDetails data = Some details →
  testCaseFailureReason details = Some r →
  testCaseFailureComment details = Some c →
  ∃ request details' w',
    handleFormSubmit data w = (Returned tt, w')
    ∧ requests w' = requests w ++ [request]
    ∧ testCaseResolutionStatusType request = Some Resolved
    ∧ testCaseReference request = Some testCaseFqn
    ∧ testCaseResolutionStatusDetails request = Some details'
    ∧ testCaseFailureReason details' = Some r
    ∧ testCaseFailureComment details' = Some c
    ∧ resolvedBy details'
      = (λ u, getEntityReferenceFromEntity u USER) <$> currentUser.
Proof.
  intros Htype Hdetails Hr Hc. destruct w as [b f evs].
  destruct data as [type det ref]. simpl in *. subst type det.
  run_handler.
  destruct (postTestCaseIncidentStatus _) as [response|error]; simpl;
    eexists _, _, _; (split; [reflexivity|]);
    unfold requests; simpl; rewrite <- !app_assoc, omap_app; simpl;
    split_and!; done.
Qed.

(** C1, as the code has it.  With the status Assigned, submission is
    blocked while the assignee item is empty (nothing selected, or an empty
    list).  When the item holds a list of picked entries, the request's
    assignee is built from the first entry: its id is the entry's [value],
    its name and display name are the entry's, and its type is USER.  When
    the item holds an entity reference (as the pre-populating effect writes
    it), the request carries that reference as it is. *)
Theorem assigned_request (w : World) :
  testCaseResolutionStatusType (form w) = Some Assigned →
  match watchAssignee (form w) with
  | NoAssignee | Selection [] => submit w = (Returned tt, w)
  | Selection (first :: _) =>
      ∃ request details w',
        submit w = (Returned tt, w')
        ∧ requests w' = requests w ++ [request]
        ∧ testCaseResolutionStatusDetails request = Some details
        ∧ assignee details
          = Reference {| ref_id := opt_value first;
                         ref_type := USER;
                         ref_name := opt_name first;
                         ref_displayName := opt_displayName first |}
  | Reference r =>
      ∃ request details w',
        submit w = (Returned tt, w')
        ∧ requests w' = requests w ++ [request]
        ∧ testCaseResolutionStatusDetails request = Some details
        ∧ assignee details = Reference r
  end.
Proof.
  destruct w as [b [type details ref] evs]. simpl. intros ->.
  unfold watchAssignee. simpl.
  destruct details as [[reason comment by_ [|[|first rest]|r]]|]; simpl;
    try reflexivity;
    run_handler;
    (destruct (postTestCaseIncidentStatus _) as [response|error]; simpl;
     eexists _, _, _; (split; [reflexivity|]);
     unfold requests; simpl; rewrite <- !app_assoc, omap_app; simpl;
     split_and!; done).
Qed.

(** C5.  A submission that passes validation sends one request.  When the
    server answers, [onSubmit] is called with the answer and then
    [onCancel] closes the modal; when the call fails, the error is shown as
    a toast and nothing else happens ([onCancel] is not called).  Either
    way the handler returns normally, the form values are as they were and
    the loading flag ends up cleared. *)
Theorem submission_outcome (w : World) :
  validateFields (form w) = [] →
  ∃ request,
    submit w
    = (Returned tt,
       {| isLoading := false;
          form := form w;
          events :=
            events w ++ Posted request ::
              match postTestCaseIncidentStatus request with
              | Returned response => [OnSubmit response; OnCancel]
              | Thrown error => [ErrorToast error]
              end |}).
Proof.
  destruct w as [b [type details ref] evs]. simpl. intros Hvalid.
  unfold TestCaseStatusModal.submit, gets. unfold bind at 1. simpl.
  rewrite Hvalid. revert Hvalid. unfold validateFields. simpl.
  destruct type as [[| |tag]|]; simpl; try discriminate.
  - destruct details as [[reason comment by_ [|[|first rest]|r]]|];
      simpl; try discriminate; intros _; run_handler; sent.
  - intros _; run_handler; sent.
  - intros _; run_handler; sent.
Qed.

End StatusModal.

(** ** The user form *)

Section UserForm.
Import Eff CreateUser.

Variable forceBot : bool.
Variable provider : option SsoServiceType.
Variable isEmail : string → bool.

(** Split on every comparison of a name with a literal. *)
Ltac name_cases :=
  repeat match goal with
         | |- context [String.eqb ?a ?b] =>
             destruct (String.eqb_spec a b); [subst; try reflexivity|]
         end.



Lemma configKey_inj n n' key :
  configKey n = Some key → configKey n' = Some key → n = n'.
Proof.
  unfold configKey. name_cases; intros; simplify_eq; done.
Qed.





Lemma split_head (c : ascii) (s : string) :
  head (Js.split c s) = Some (beforeFirst c s).
Proof.
  induction s as [|a rest IH]; simpl; [done|].
  case_bool_decide; [done|].
  destruct (Js.split c rest) as [|piece pieces]; [done|].
  simpl in *. by simplify_eq.
Qed.

Lemma beforeFirst_free (c : ascii) (s : string) :
  c ∉ list_ascii_of_string (beforeFirst c s).
Proof.
  induction s as [|a rest IH]; simpl; [apply not_elem_of_nil|].
  case_bool_decide; simpl; [apply not_elem_of_nil|].
  apply not_elem_of_cons. split; [congruence|done].
Qed.

Lemma beforeFirst_prefix (c : ascii) (s : string) :
  ((c ∉ list_ascii_of_string s) ∧ beforeFirst c s = s)
  ∨ (∃ rest, s = beforeFirst c s +:+ String c rest).
Proof.
  induction s as [|a s IH]; simpl.
  - left. split; [apply not_elem_of_nil|done].
  - case_bool_decide as Ha.
    + right. exists s. by subst.
    + destruct IH as [[Hfree Heq]|[rest Heq]].
      * left. split; [|by rewrite Heq].
        apply not_elem_of_cons. split; [congruence|done].
      * right. exists rest. rewrite Heq at 1. reflexivity.
Qed.

(** C9.  The name of the payload is the part of the entered email before
    its first ['@']: it holds no ['@'], and the email is either that name
    followed by an ['@'] and a rest, or has no ['@'] and is the name
    itself.  The display name plays no part in it. *)
Theorem payload_name_from_email (st : State) :
  ∃ name,
    user_name (handleSave forceBot provider st) = Some name
    ∧ name = beforeFirst "@" (email st)
    ∧ ("@"%char ∉ list_ascii_of_string name)
    ∧ ((("@"%char ∉ list_ascii_of_string (email st)) ∧ name = email st)
       ∨ (∃ rest, email st = name +:+ String "@" rest))
    ∧ ∀ shown,
        user_name (handleSave forceBot provider (setDisplayName shown st))
        = Some name.
Proof.
  exists (beforeFirst "@" (email st)). split_and!.
  - apply split_head.
  - done.
  - apply beforeFirst_free.
  - apply beforeFirst_prefix.
  - intros shown. apply split_head.
Qed.

Lemma submitForm_blocked (st : State) failure :
  failure ∈ formErrors forceBot provider isEmail st →
  submitForm forceBot provider isEmail st = [].
Proof.
  unfold submitForm.
  destruct (formErrors forceBot provider isEmail st);
    [by intros ?%elem_of_nil|done].
Qed.

(** C6, as the code has it.  In manual password mode, with [p] the
    password and [c] the confirmation: when [c] is [p] the confirmation
    validator accepts and adds no failure, so the submission goes ahead,
    calling [onSave] once with the payload, whenever no other rule of the
    form fails (the required rules, which want a password and a
    confirmation that are not empty, and the email rules); when [c] is not
    [p] the validator rejects with the mismatch message and [onSave] is
    not called. *)
Theorem confirmation_must_match (st : State) :
  passwordGenerator st = CreatePassword →
  (fields st !! "confirmPassword" = Some (password st) →
   confirmPasswordValidator (password st) (fields st !! "confirmPassword")
   = Returned tt
   ∧ formErrors forceBot provider isEmail st
     = fieldRuleErrors forceBot provider isEmail st
   ∧ (fieldRuleErrors forceBot provider isEmail st = [] →
      submitForm forceBot provider isEmail st
      = [handleSave forceBot provider st]))
  ∧ (fields st !! "confirmPassword" ≠ Some (password st) →
     confirmPasswordValidator (password st) (fields st !! "confirmPassword")
     = Thrown "Password doesn't match"
     ∧ ("confirmPassword", Rejected "Password doesn't match")
       ∈ formErrors forceBot provider isEmail st
     ∧ submitForm forceBot provider isEmail st = []).
Proof.
  intros Hmanual. split.
  - intros Hsame.
    assert (confirmPasswordValidator (password st)
              (fields st !! "confirmPassword") = Returned tt) as Hok.
    { unfold confirmPasswordValidator.
      by rewrite bool_decide_eq_true_2. }
    assert (formErrors forceBot provider isEmail st
            = fieldRuleErrors forceBot provider isEmail st)
      as Herrors.
    { unfold formErrors. rewrite Hmanual, Hok. simpl. apply app_nil_r. }
    split_and!; [done..|].
    intros Hrest. unfold submitForm. by rewrite Herrors, Hrest.
  - intros Hdiffer.
    assert (confirmPasswordValidator (password st)
              (fields st !! "confirmPassword")
            = Thrown "Password doesn't match") as Hrejected.
    { unfold confirmPasswordValidator.
      by rewrite bool_decide_eq_false_2. }
    assert (("confirmPassword", Rejected "Password doesn't match")
            ∈ formErrors forceBot provider isEmail st)
      as Hfailure.
    { unfold formErrors. rewrite Hmanual, Hrejected. simpl.
      apply elem_of_app. right. by left. }
    split_and!; [done..|].
    by apply (submitForm_blocked _ _ Hfailure).
Qed.

End UserForm.

(** ** Generating a password *)

Section GeneratePassword.
Import Eff CreateUser.

Variable generateRandomPwd : Outcome Exn string.

(** C8, as the code has it.  The handler always returns normally and the
    busy flag is cleared by its [finally] block, as soon as the network call
    is over.  What waits for the fixed delay of 500 ms is the storing of the
    password: on success one timer is pending which, when it fires, puts
    the password into the state and the form and leaves the flag alone; on
    failure no timer is set and the error is shown as a toast. *)
Theorem generateRandomPassword_completion (w : World) :
  let result := generateRandomPassword generateRandomPwd w in
  result.1 = Returned tt
  ∧ isPasswordGenerating (state result.2) = false
  ∧ generatedPassword (state result.2) = generatedPassword (state w)
  ∧ match generateRandomPwd with
    | Returned password =>
        timers result.2 = timers w ++ [(500, StoreGeneratedPassword password)]
        ∧ toasts result.2 = toasts w
        ∧ generatedPassword
            (fire (StoreGeneratedPassword password) (state result.2))
          = password
        ∧ fields (fire (StoreGeneratedPassword password) (state result.2))
            !! "generatedPassword" = Some password
        ∧ isPasswordGenerating
            (fire (StoreGeneratedPassword password) (state result.2))
          = isPasswordGenerating (state result.2)
    | Thrown err =>
        timers result.2 = timers w ∧ toasts result.2 = toasts w ++ [err]
    end.
Proof.
  destruct w as [st pending shown].
  unfold generateRandomPassword, try_finally, try_catch, bind, update,
    CreateUser.setTimeout, CreateUser.showErrorToast, modify.
  destruct generateRandomPwd as [password|err]; simpl; split_and!;
    try reflexivity.
  apply lookup_insert_eq.
Qed.

End GeneratePassword.

(** ** The status modal: validation, blocked submissions and the request *)

Section StatusModalSubmission.
Import Eff TestCaseStatusModal.

Variable User : Type.
Variable getEntityReferenceFromEntity : User → EntityType → EntityReference.
Variable currentUser : option User.
Variable testCaseFqn : string.
Variable postTestCaseIncidentStatus :
  CreateTestCaseResolutionStatus → Outcome Exn CreateTestCaseResolutionStatus.

Local Abbreviation handleFormSubmit :=
  (handleFormSubmit User getEntityReferenceFromEntity currentUser
     testCaseFqn postTestCaseIncidentStatus).
Local Abbreviation submit :=
  (submit User getEntityReferenceFromEntity currentUser
     testCaseFqn postTestCaseIncidentStatus).

Ltac run_handler :=
  unfold TestCaseStatusModal.submit, TestCaseStatusModal.handleFormSubmit,
    post, onSubmit, onCancel, showErrorToast, emit, setIsLoading, lengthOf,
    try_finally, try_catch, bind, ret, gets, modify, throw;
  simpl.

(** Split on the answer of the server and collect the requests. *)
Ltac answered :=
  match goal with
  | |- context [postTestCaseIncidentStatus ?request] =>
      destruct (postTestCaseIncidentStatus request) as [response|error]
  end;
  simpl; unfold requests; simpl; rewrite <- ?app_assoc, ?omap_app; simpl.

Lemma submit_unfold (w : World) :
  submit w
  = match validateFields (form w) with
    | [] => handleFormSubmit (renderedValues (form w)) w
    | _ :: _ => (Returned tt, w)
    end.
Proof.
  unfold TestCaseStatusModal.submit, gets, bind. simpl.
  by destruct (validateFields (form w)).
Qed.

(** X1.  With the status Resolved the submission is blocked, and nothing
    at all happens, while the reason or the comment is missing; with both
    present exactly one request is sent. *)
Theorem resolved_needs_reason_and_comment (w : World) :
  testCaseResolutionStatusType (form w) = Some Resolved →
  if missingText
       (testCaseFailureReason (spread (testCaseResolutionStatusDetails (form w))))
     || missingText
          (testCaseFailureComment
             (spread (testCaseResolutionStatusDetails (form w))))
  then submit w = (Returned tt, w)
  else ∃ request, requests (submit w).2 = requests w ++ [request].
Proof.
  destruct w as [b [type details ref] evs]. simpl. intros ->.
  destruct details as [[[[|c1 r1]|] [[|c2 r2]|] by_ who]|]; simpl;
    try reflexivity;
    run_handler; answered; eexists; reflexivity.
Qed.

(** X2.  A status other than Resolved and Assigned needs nothing but the
    status: the submission always goes out, and the request carries the
    status and the test case of the modal as reference and no details,
    whatever details the form still holds from another status. *)
Theorem other_status_request (w : World) (tag : string) :
  testCaseResolutionStatusType (form w) = Some (OtherStatus tag) →
  requests (submit w).2
  = requests w
    ++ [ {| testCaseResolutionStatusType := Some (OtherStatus tag);
            testCaseResolutionStatusDetails := None;
            testCaseReference := Some testCaseFqn |} ].
Proof.
  destruct w as [b [type details ref] evs]. simpl. intros ->.
  run_handler. unfold validateFields. simpl.
  answered; reflexivity.
Qed.

(** X3.  A submission sends at most one request: none when a rule fails
    (then nothing changes at all), and otherwise one, which names the test
    case of the modal and carries the status chosen in the form. *)
Theorem request_names_test_case (w : World) :
  match validateFields (form w) with
  | [] =>
      ∃ request,
        requests (submit w).2 = requests w ++ [request]
        ∧ testCaseReference request = Some testCaseFqn
        ∧ testCaseResolutionStatusType request
          = testCaseResolutionStatusType (form w)
  | _ :: _ => submit w = (Returned tt, w)
  end.
Proof.
  rewrite !submit_unfold. destruct w as [b [type details ref] evs].
  destruct (validateFields _) as [|failure failures] eqn:Hvalid;
    [|split_and?; reflexivity].
  revert Hvalid. unfold validateFields. simpl.
  destruct type as [[| |tag]|]; simpl; try discriminate.
  - destruct details as [[reason comment by_ [|[|first rest]|r]]|];
      simpl; try discriminate; intros _; run_handler; answered;
      eexists; split_and!; reflexivity.
  - intros _; run_handler; answered; eexists; split_and!; reflexivity.
  - intros _; run_handler; answered; eexists; split_and!; reflexivity.
Qed.

(** X4.  Pressing submit never throws and never changes the form values,
    whatever the form holds and whatever the server answers. *)
Theorem submit_never_throws (w : World) :
  (submit w).1 = Returned tt ∧ form (submit w).2 = form w.
Proof.
  rewrite !submit_unfold. destruct w as [b [type details ref] evs].
  destruct (validateFields _) as [|failure failures] eqn:Hvalid;
    [|split_and?; reflexivity].
  revert Hvalid. unfold validateFields. simpl.
  destruct type as [[| |tag]|]; simpl; try discriminate.
  - destruct details as [[reason comment by_ [|[|first rest]|r]]|];
      simpl; try discriminate; intros _; run_handler; answered; done.
  - intros _; run_handler; answered; done.
  - intros _; run_handler; answered; done.
Qed.

(** X5.  The handler itself is not protected against a missing assignee:
    called for the status Assigned while the watched assignee is undefined,
    it throws a type error before its try block, so no request is sent, no
    toast is shown and the loading flag it has just set stays on. *)
Theorem handleFormSubmit_undefined_assignee (data : CreateTestCaseResolutionStatus)
    (w : World) :
  testCaseResolutionStatusType data = Some Assigned →
  watchAssignee (form w) = NoAssignee →
  ∃ message,
    handleFormSubmit data w
    = (Thrown (TypeError message),
       {| isLoading := true; form := form w; events := events w |}).
Proof.
  destruct w as [b f evs], data as [type details ref]. simpl.
  intros -> Hwatch. run_handler. rewrite Hwatch. simpl.
  eexists. reflexivity.
Qed.

(** X6.  The pre-populating effect can run any number of times: a second
    run changes nothing, and a run never touches the status, the reference,
    the reason, the comment or the resolver held by the form. *)
Theorem prepopulate_idempotent (data : option CreateTestCaseResolutionStatus)
    (f : CreateTestCaseResolutionStatus) :
  prepopulate data (prepopulate data f) = prepopulate data f
  ∧ testCaseResolutionStatusType (prepopulate data f)
    = testCaseResolutionStatusType f
  ∧ testCaseReference (prepopulate data f) = testCaseReference f
  ∧ testCaseFailureReason
      (spread (testCaseResolutionStatusDetails (prepopulate data f)))
    = testCaseFailureReason (spread (testCaseResolutionStatusDetails f))
  ∧ testCaseFailureComment
      (spread (testCaseResolutionStatusDetails (prepopulate data f)))
    = testCaseFailureComment (spread (testCaseResolutionStatusDetails f))
  ∧ resolvedBy (spread (testCaseResolutionStatusDetails (prepopulate data f)))
    = resolvedBy (spread (testCaseResolutionStatusDetails f)).
Proof.
  unfold prepopulate.
  destruct (bool_decide _ && truthy _); simpl; split_and!; reflexivity.
Qed.

(** X7.  An incident that is assigned, with a reference as assignee, can be
    submitted straight after the modal is opened on it: the assignee item
    is pre-populated, no rule fails, and the one request names the test
    case of the modal and carries, as its details, that assignee reference
    alone; a reason, comment or resolver of the incident is not sent. *)
Theorem resubmit_assigned_incident (data : CreateTestCaseResolutionStatus)
    (details : StatusDetails) (r : EntityReference) :
  testCaseResolutionStatusType data = Some Assigned →
  testCaseResolutionStatusDetails data = Some details →
  assignee details = Reference r →
  watchAssignee (form (mounted (Some data))) = Reference r
  ∧ requests (submit (mounted (Some data))).2
    = [ {| testCaseResolutionStatusType := Some Assigned;
           testCaseResolutionStatusDetails :=
             Some {| testCaseFailureReason := None;
                     testCaseFailureComment := None;
                     resolvedBy := None;
                     assignee := Reference r |};
           testCaseReference := Some testCaseFqn |} ].
Proof.
  destruct data as [type det ref], details as [reason comment by_ who].
  simpl. intros -> -> ->. split; [reflexivity|].
  unfold mounted, prepopulate. simpl.
  run_handler. answered; reflexivity.
Qed.

End StatusModalSubmission.

(** ** The user form: change events *)

Section ChangeEvents.
Import Eff CreateUser.

Ltac name_cases :=
  repeat match goal with
         | |- context [String.eqb ?a ?b] =>
             destruct (String.eqb_spec a b); [subst; try reflexivity|]
         end.

(** X8.  A text input whose name is none of the names [handleOnChange]
    switches on leaves the state as it is. *)
Theorem handleOnChange_unknown_name (name value : string) (st : State) :
  name ∉ ["email"; "displayName"; "secretKey"; "audience"; "clientId";
          "domain"; "clientSecret"; "authority"; "scopes"; "privateKey";
          "orgURL"; "oktaEmail"; "tokenEndpoint"; "password";
          "confirmPassword"; "passwordGenerator"] →
  handleOnChange (InputChange name value) st = st.
Proof.
  intros Hname. unfold handleOnChange.
  repeat match goal with
         | |- context [String.eqb ?a ?b] =>
             destruct (String.eqb_spec a b) as [->|_]
         end;
    try reflexivity;
    exfalso; apply Hname; by repeat constructor.
Qed.

(** X9.  [handleOnChange] never touches the admin and bot flags, the
    selected roles and teams, the generated password and its busy flag, the
    authentication mechanism, the token expiry, or the values the form
    holds. *)
Theorem handleOnChange_frame (event : ChangeEvent) (st : State) :
  isAdmin (handleOnChange event st) = isAdmin st
  ∧ isBot (handleOnChange event st) = isBot st
  ∧ selectedRoles (handleOnChange event st) = selectedRoles st
  ∧ selectedTeams (handleOnChange event st) = selectedTeams st
  ∧ generatedPassword (handleOnChange event st) = generatedPassword st
  ∧ isPasswordGenerating (handleOnChange event st) = isPasswordGenerating st
  ∧ authMechanism (handleOnChange event st) = authMechanism st
  ∧ tokenExpiry (handleOnChange event st) = tokenExpiry st
  ∧ fields (handleOnChange event st) = fields st.
Proof.
  destruct event; unfold handleOnChange; name_cases;
    split_and!; reflexivity.
Qed.

Lemma step_typed_state (name value : string) (st : State) :
  step st (Typed name value)
  = {| email := if String.eqb name "email" then value else email st;
       displayName :=
         if String.eqb name "displayName" then value else displayName st;
       isAdmin := isAdmin st;
       isBot := isBot st;
       selectedRoles := selectedRoles st;
       selectedTeams := selectedTeams st;
       password := if String.eqb name "password" then value else password st;
       confirmPassword :=
         if String.eqb name "confirmPassword" then value
         else confirmPassword st;
       passwordGenerator := passwordGenerator st;
       generatedPassword := generatedPassword st;
       isPasswordGenerating := isPasswordGenerating st;
       authMechanism := authMechanism st;
       tokenExpiry := tokenExpiry st;
       ssoClientConfig :=
         match configKey name with
         | Some key => <[key := configValue name value]> (ssoClientConfig st)
         | None => ssoClientConfig st
         end;
       editorContent := editorContent st;
       fields := <[name := value]> (fields st) |}.
Proof.
  destruct st. unfold step, handleOnChange, configKey, configValue.
  name_cases. reflexivity.
Qed.

(** X10.  Typing twice into the same input keeps the last text only: the
    state is the one the second text alone would give. *)
Theorem typed_last_write_wins (name first last : string) (st : State) :
  step (step st (Typed name first)) (Typed name last)
  = step st (Typed name last).
Proof.
  rewrite !step_typed_state. simpl.
  rewrite insert_insert_eq.
  destruct (configKey name) as [key|]; [rewrite insert_insert_eq|];
    by repeat destruct (String.eqb name _).
Qed.

(** X11.  Typing into two different inputs gives the same state in either
    order. *)
Theorem typed_commute (n1 v1 n2 v2 : string) (st : State) :
  n1 ≠ n2 →
  step (step st (Typed n1 v1)) (Typed n2 v2)
  = step (step st (Typed n2 v2)) (Typed n1 v1).
Proof.
  intros Hne. rewrite !step_typed_state. simpl.
  rewrite (insert_insert_ne _ n2 n1) by done.
  assert (match configKey n2 with
          | Some key =>
              <[key := configValue n2 v2]>
                match configKey n1 with
                | Some key1 => <[key1 := configValue n1 v1]> (ssoClientConfig st)
                | None => ssoClientConfig st
                end
          | None =>
              match configKey n1 with
              | Some key1 => <[key1 := configValue n1 v1]> (ssoClientConfig st)
              | None => ssoClientConfig st
              end
          end
          = match configKey n1 with
            | Some key =>
                <[key := configValue n1 v1]>
                  match configKey n2 with
                  | Some key2 =>
                      <[key2 := configValue n2 v2]> (ssoClientConfig st)
                  | None => ssoClientConfig st
                  end
            | None =>
                match configKey n2 with
                | Some key2 =>
                    <[key2 := configValue n2 v2]> (ssoClientConfig st)
                | None => ssoClientConfig st
                end
            end) as ->.
  { destruct (configKey n1) as [k1|] eqn:H1, (configKey n2) as [k2|] eqn:H2;
      try reflexivity.
    apply insert_insert_ne. intros ->. apply Hne.
    by apply (configKey_inj _ _ k1). }
  assert (∀ lit (a : string),
            (if String.eqb n2 lit then v2
             else if String.eqb n1 lit then v1 else a)
            = (if String.eqb n1 lit then v1
               else if String.eqb n2 lit then v2 else a)) as Hslot.
  { intros lit a.
    destruct (String.eqb_spec n1 lit), (String.eqb_spec n2 lit);
      congruence. }
  by rewrite !Hslot.
Qed.

Lemma split_nonempty (c : ascii) (s : string) : Js.split c s ≠ [].
Proof.
  destruct s as [|a rest]; simpl; [done|].
  case_bool_decide; [done|]. by destruct (Js.split c rest).
Qed.

Lemma split_concat (c : ascii) (s : string) :
  String.concat (String c EmptyString) (Js.split c s) = s.
Proof.
  induction s as [|a rest IH]; simpl; [done|].
  pose proof (split_nonempty c rest) as Hne.
  case_bool_decide as Ha.
  - subst a. destruct (Js.split c rest) as [|piece pieces]; [done|].
    simpl in *. by rewrite IH.
  - destruct (Js.split c rest) as [|piece pieces]; [done|].
    destruct pieces as [|next pieces]; simpl in *; by rewrite <- IH.
Qed.

Lemma split_pieces_free (c : ascii) (s : string) :
  Forall (λ piece, c ∉ list_ascii_of_string piece) (Js.split c s).
Proof.
  induction s as [|a rest IH]; simpl.
  - constructor; [apply not_elem_of_nil|constructor].
  - case_bool_decide as Ha.
    + constructor; [apply not_elem_of_nil|done].
    + destruct (Js.split c rest) as [|piece pieces].
      * constructor; [|constructor]. simpl.
        apply not_elem_of_cons. split; [congruence|apply not_elem_of_nil].
      * inversion IH as [|? ? Hpiece Hpieces]; subst.
        constructor; [|done]. simpl.
        apply not_elem_of_cons. split; [congruence|done].
Qed.

(** X12.  Typing into the scopes input stores a list: the empty list for
    an empty text, and otherwise the pieces of the text between its commas,
    so that joining them with commas gives the text back; no piece holds a
    comma. *)
Theorem scopes_stored (value : string) (st : State) :
  ∃ pieces,
    ssoClientConfig (handleOnChange (InputChange "scopes" value) st)
      !! "scopes" = Some (TextList pieces)
    ∧ match value with
      | EmptyString => pieces = []
      | String _ _ => String.concat "," pieces = value
      end
    ∧ Forall (λ piece, ","%char ∉ list_ascii_of_string piece) pieces.
Proof.
  destruct value as [|a rest].
  - exists []. split_and!; [apply lookup_insert_eq|done|constructor].
  - exists (Js.split "," (String a rest)). split_and!.
    + apply lookup_insert_eq.
    + apply (split_concat ","%char).
    + apply split_pieces_free.
Qed.

End ChangeEvents.

(** ** The user form: the roles dropdown *)

Section RolesDropdown.
Import CreateUser.
Implicit Types (l : list (option string)) (id : option string).

(** X13.  A click on a role changes the selection by that role alone and
    by one entry: the other ids stay, in their order, and the list gets one
    entry shorter when the id was selected and one longer when not. *)
Theorem role_click_changes_one l id :
  filter (λ x, x ≠ id) (selectedRolesHandler id l) = filter (λ x, x ≠ id) l
  ∧ (if Js.includes l id
     then S (length (selectedRolesHandler id l)) = length l
     else length (selectedRolesHandler id l) = S (length l)).
Proof.
  unfold Js.includes. destruct (decide (id ∈ l)) as [Hin|Hout].
  - rewrite bool_decide_eq_true_2 by done.
    destruct (first_occurrence l id Hin) as (l1 & l2 & -> & Hl1).
    rewrite selectedRolesHandler_present by done.
    rewrite !filter_app, filter_cons_False by (intros H; by apply H).
    split; [done|]. rewrite !length_app. simpl. lia.
  - rewrite bool_decide_eq_false_2 by done.
    rewrite selectedRolesHandler_absent by done.
    rewrite filter_app, filter_cons_False by (intros H; by apply H).
    rewrite filter_nil, app_nil_r. split; [done|].
    rewrite length_app. simpl. lia.
Qed.

(** X14.  When the handler removes, the index it hands to [splice] is a
    position of the list, it holds the clicked id, and no earlier position
    does: the entry removed is the first occurrence of that id. *)
Theorem removal_index_valid l id :
  Js.includes l id = true →
  ∃ i : nat,
    Js.indexOf l id = Z.of_nat i
    ∧ l !! i = Some id
    ∧ (∀ j, j < i → l !! j ≠ Some id)
    ∧ selectedRolesHandler id l = take i l ++ drop (S i) l.
Proof.
  unfold Js.includes. intros Hin%bool_decide_eq_true.
  destruct (first_occurrence l id Hin) as (l1 & l2 & -> & Hl1).
  exists (length l1). split_and!.
  - by apply indexOf_app_first.
  - by apply list_lookup_middle.
  - intros j Hj Hlook. apply Hl1.
    rewrite lookup_app_l in Hlook by done.
    by apply list_elem_of_lookup_2 in Hlook.
  - rewrite selectedRolesHandler_present by done.
    rewrite take_app_length.
    replace (S (length l1)) with (length l1 + 1) by lia.
    by rewrite drop_app_add.
Qed.

End RolesDropdown.

(** ** The user form: what is saved *)

Section SavedPayload.
Import Eff CreateUser.

Variable forceBot : bool.
Variable provider : option SsoServiceType.
Variable isEmail : string → bool.










Lemma definedIds_elem (ids : list (option string)) (x : string) :
  x ∈ definedIds ids ↔ Some x ∈ ids.
Proof.
  unfold definedIds. rewrite list_elem_of_omap. split.
  - by intros (y & Hy & ->).
  - intros Hx. by exists (Some x).
Qed.

Lemma nonEmpty_default (xs : list string) :
  nonEmpty xs ≠ Some [] ∧ default [] (nonEmpty xs) = xs.
Proof. by destruct xs. Qed.

(** X18.  A payload never holds an empty description or an empty list of
    roles or teams (these are left out instead), and the roles and teams
    it lists are exactly the defined ids that are selected. *)
Theorem payload_leaves_out_empty (st : State) :
  user_description (handleSave forceBot provider st) ≠ Some EmptyString
  ∧ user_roles (handleSave forceBot provider st) ≠ Some []
  ∧ user_teams (handleSave forceBot provider st) ≠ Some []
  ∧ (∀ x, x ∈ default [] (user_roles (handleSave forceBot provider st))
          ↔ Some x ∈ selectedRoles st)
  ∧ (∀ x, x ∈ default [] (user_teams (handleSave forceBot provider st))
          ↔ Some x ∈ selectedTeams st).
Proof.
  unfold handleSave. simpl. split_and!.
  - destruct (editorContent st) as [[|a rest]|]; simpl; congruence.
  - apply nonEmpty_default.
  - apply nonEmpty_default.
  - intros x. rewrite (proj2 (nonEmpty_default _)). apply definedIds_elem.
  - intros x. rewrite (proj2 (nonEmpty_default _)). apply definedIds_elem.
Qed.






(** X21.  The dropdown shows one item per role or team, in the same order
    and with the same ids, and the label of an item is empty only when its
    source has neither a display name nor a name. *)
Theorem getDropdownOptions_items (data : list OptionSource) :
  item_value <$> getDropdownOptions data = src_id <$> data
  ∧ Forall2
      (λ source item,
         item_name item = EmptyString →
         (src_displayName source = None
          ∨ src_displayName source = Some EmptyString)
         ∧ (src_name source = None ∨ src_name source = Some EmptyString))
      data (getDropdownOptions data).
Proof.
  unfold getDropdownOptions. split.
  - by rewrite <- list_fmap_compose.
  - induction data as [|[id name shown] data IH]; simpl; constructor;
      [|done].
    simpl. destruct shown as [[|a rest]|], name as [[|b more]|]; simpl;
      intros Hempty; try discriminate; split; eauto.
Qed.

End SavedPayload.

(** ** Generating a password: what the handler leaves alone *)

Section GeneratePasswordFrame.
Import Eff CreateUser.

Variable generateRandomPwd : Outcome Exn string.

(** X22.  Generating a password changes no slot of the state but the busy
    flag, whatever the endpoint answers.  When the endpoint answers with a
    password, one timer is added, for storing that password after 500 ms,
    and no toast is shown; when the call fails, the error is shown as one
    toast and no timer is added. *)
Theorem generateRandomPassword_frame (w : World) :
  state (generateRandomPassword generateRandomPwd w).2
  = setIsPasswordGenerating false (state w)
  ∧ match generateRandomPwd with
    | Returned password =>
        timers (generateRandomPassword generateRandomPwd w).2
        = timers w ++ [(500, StoreGeneratedPassword password)]
        ∧ toasts (generateRandomPassword generateRandomPwd w).2 = toasts w
    | Thrown err =>
        timers (generateRandomPassword generateRandomPwd w).2 = timers w
        ∧ toasts (generateRandomPassword generateRandomPwd w).2
          = toasts w ++ [err]
    end.
Proof.
  destruct w as [st pending shown].
  unfold generateRandomPassword, try_finally, try_catch, bind, update,
    CreateUser.setTimeout, CreateUser.showErrorToast, modify.
  destruct generateRandomPwd as [password|err]; simpl;
    split_and!; reflexivity.
Qed.

End GeneratePasswordFrame.

(** * Scenarios *)

Section Scenarios.
Import Eff CreateUser.

Local Abbreviation submitStatus server :=
  (TestCaseStatusModal.submit Scenario.User
     Scenario.getEntityReferenceFromEntity (Some Scenario.alice)
     Scenario.testCaseFqn server).

Local Abbreviation handleStatus server :=
  (TestCaseStatusModal.handleFormSubmit Scenario.User
     Scenario.getEntityReferenceFromEntity (Some Scenario.alice)
     Scenario.testCaseFqn server).

(** The modal is opened on an incident that is assigned to a team and
    submitted as it is: the submission is not blocked and the request keeps
    the team reference, whose type is not USER. *)
Lemma prepopulated_assignee_kept :
  TestCaseStatusModal.testCaseResolutionStatusType
    (TestCaseStatusModal.form
       (TestCaseStatusModal.mounted (Some Scenario.assignedIncident)))
  = Some TestCaseStatusModal.Assigned
  ∧ TestCaseStatusModal.requests
      (submitStatus Scenario.accepting
         (TestCaseStatusModal.mounted (Some Scenario.assignedIncident))).2
    = [ {| TestCaseStatusModal.testCaseResolutionStatusType :=
             Some TestCaseStatusModal.Assigned;
           TestCaseStatusModal.testCaseResolutionStatusDetails :=
             Some {| TestCaseStatusModal.testCaseFailureReason := None;
                     TestCaseStatusModal.testCaseFailureComment := None;
                     TestCaseStatusModal.resolvedBy := None;
                     TestCaseStatusModal.assignee :=
                       TestCaseStatusModal.Reference
                         Scenario.dataQualityTeam |};
           TestCaseStatusModal.testCaseReference :=
             Some Scenario.testCaseFqn |} ]
  ∧ TestCaseStatusModal.ref_type Scenario.dataQualityTeam
    ≠ TestCaseStatusModal.USER.
Proof. split_and!; [reflexivity..|discriminate]. Qed.

Lemma assigned_request_witness :
  TestCaseStatusModal.testCaseResolutionStatusType
    (TestCaseStatusModal.form Scenario.assigning)
  = Some TestCaseStatusModal.Assigned
  ∧ ∃ request details w',
      submitStatus Scenario.accepting Scenario.assigning = (Returned tt, w')
      ∧ TestCaseStatusModal.requests w'
        = TestCaseStatusModal.requests Scenario.assigning ++ [request]
      ∧ TestCaseStatusModal.testCaseResolutionStatusDetails request
        = Some details
      ∧ TestCaseStatusModal.assignee details
        = TestCaseStatusModal.Reference
            {| TestCaseStatusModal.ref_id := Some "b0b";
               TestCaseStatusModal.ref_type := TestCaseStatusModal.USER;
               TestCaseStatusModal.ref_name := Some "bob";
               TestCaseStatusModal.ref_displayName := Some "Bob B." |}.
Proof.
  split; [reflexivity|].
  apply (assigned_request Scenario.User
           Scenario.getEntityReferenceFromEntity (Some Scenario.alice)
           Scenario.testCaseFqn Scenario.accepting Scenario.assigning).
  reflexivity.
Defined.

Lemma resolved_request_witness :
  ∃ request details' w',
    handleStatus Scenario.accepting
      (TestCaseStatusModal.form Scenario.resolving) Scenario.resolving
    = (Returned tt, w')
    ∧ TestCaseStatusModal.requests w'
      = TestCaseStatusModal.requests Scenario.resolving ++ [request]
    ∧ TestCaseStatusModal.testCaseResolutionStatusType request
      = Some TestCaseStatusModal.Resolved
    ∧ TestCaseStatusModal.testCaseReference request
      = Some Scenario.testCaseFqn
    ∧ TestCaseStatusModal.testCaseResolutionStatusDetails request
      = Some details'
    ∧ TestCaseStatusModal.testCaseFailureReason details' = Some "Duplicate"
    ∧ TestCaseStatusModal.testCaseFailureComment details' = Some "dup of X"
    ∧ TestCaseStatusModal.resolvedBy details'
      = Some (Scenario.getEntityReferenceFromEntity Scenario.alice
                TestCaseStatusModal.USER).
Proof.
  eapply (resolved_request Scenario.User
            Scenario.getEntityReferenceFromEntity (Some Scenario.alice)
            Scenario.testCaseFqn Scenario.accepting
            (TestCaseStatusModal.form Scenario.resolving));
    reflexivity.
Defined.

Lemma statusOptions_witness :
  TestCaseStatusModal.value
    <$> TestCaseStatusModal.statusOptions Scenario.statusTypeValues
          (Some Scenario.assignedIncident)
  = [TestCaseStatusModal.Assigned; TestCaseStatusModal.Resolved]
  ∧ TestCaseStatusModal.value
      <$> TestCaseStatusModal.statusOptions Scenario.statusTypeValues None
    = Scenario.statusTypeValues.
Proof.
  split.
  - refine (proj1 (statusOptions_by_prior_status Scenario.statusTypeValues
                     (Some Scenario.assignedIncident)) _).
    reflexivity.
  - refine (proj1 (proj2 (statusOptions_by_prior_status
                            Scenario.statusTypeValues None)) _).
    discriminate.
Defined.

Lemma submission_outcome_witness :
  (∃ request,
     submitStatus Scenario.accepting Scenario.resolving
     = (Returned tt,
        {| TestCaseStatusModal.isLoading := false;
           TestCaseStatusModal.form :=
             TestCaseStatusModal.form Scenario.resolving;
           TestCaseStatusModal.events :=
             TestCaseStatusModal.events Scenario.resolving
             ++ TestCaseStatusModal.Posted request ::
                match Scenario.accepting request with
                | Returned response =>
                    [TestCaseStatusModal.OnSubmit response;
                     TestCaseStatusModal.OnCancel]
                | Thrown error => [TestCaseStatusModal.ErrorToast error]
                end |}))
  ∧ (∃ request,
       submitStatus Scenario.unreachable Scenario.resolving
       = (Returned tt,
          {| TestCaseStatusModal.isLoading := false;
             TestCaseStatusModal.form :=
               TestCaseStatusModal.form Scenario.resolving;
             TestCaseStatusModal.events :=
               TestCaseStatusModal.events Scenario.resolving
               ++ TestCaseStatusModal.Posted request ::
                  match Scenario.unreachable request with
                  | Returned response =>
                      [TestCaseStatusModal.OnSubmit response;
                       TestCaseStatusModal.OnCancel]
                  | Thrown error => [TestCaseStatusModal.ErrorToast error]
                  end |})).
Proof.
  split.
  - apply (submission_outcome Scenario.User
             Scenario.getEntityReferenceFromEntity (Some Scenario.alice)
             Scenario.testCaseFqn Scenario.accepting Scenario.resolving).
    reflexivity.
  - apply (submission_outcome Scenario.User
             Scenario.getEntityReferenceFromEntity (Some Scenario.alice)
             Scenario.testCaseFqn Scenario.unreachable Scenario.resolving).
    reflexivity.
Defined.



(** The two password scenarios: the confirmation repeats the password and
    the form is saved, or differs from it and nothing is saved. *)
Lemma confirmation_must_match_witness :
  passwordGenerator
    (run (initialState false) (Scenario.manualPassword "Abc123!"))
  = CreatePassword
  ∧ submitForm false None Scenario.looksLikeEmail
      (run (initialState false) (Scenario.manualPassword "Abc123!"))
    = [handleSave false None
         (run (initialState false) (Scenario.manualPassword "Abc123!"))]
  ∧ submitForm false None Scenario.looksLikeEmail
      (run (initialState false) (Scenario.manualPassword "Abc124!"))
    = [].
Proof.
  split; [reflexivity|]. split.
  - refine (proj2 (proj2 (proj1
      (confirmation_must_match false None Scenario.looksLikeEmail
         (run (initialState false) (Scenario.manualPassword "Abc123!"))
         eq_refl) _)) _); reflexivity.
  - refine (proj2 (proj2 (proj2
      (confirmation_must_match false None Scenario.looksLikeEmail
         (run (initialState false) (Scenario.manualPassword "Abc124!"))
         eq_refl) _))).
    discriminate.
Defined.

(** A password is generated on an idle form: when the handler is done the
    busy flag is already cleared, while the password is not stored yet and
    waits in the one pending timer. *)
Lemma busy_flag_cleared_at_completion :
  isPasswordGenerating
    (state (generateRandomPassword (Returned "Xk2#9fQ!") Scenario.idle).2)
  ≠ true
  ∧ timers (generateRandomPassword (Returned "Xk2#9fQ!") Scenario.idle).2
    = [(500, StoreGeneratedPassword "Xk2#9fQ!")]
  ∧ generatedPassword
      (state (generateRandomPassword (Returned "Xk2#9fQ!") Scenario.idle).2)
    = EmptyString.
Proof. split_and!; [discriminate|reflexivity..]. Qed.

(** Clicking twice gives back the same roles, not always in the same
    order; and the name of a user is cut at the first ['@']. *)
Example toggle_twice_reorders :
  selectedRolesHandler (Some "admin")
    (selectedRolesHandler (Some "admin") [Some "admin"; Some "steward"])
  = [Some "steward"; Some "admin"].
Proof. reflexivity. Qed.

Example name_of_carol :
  user_name
    (handleSave false None
       (run (initialState false) (Scenario.manualPassword "Abc123!")))
  = Some "carol".
Proof. reflexivity. Qed.

Example split_scopes : Js.split "," "openid,profile" = ["openid"; "profile"].
Proof. reflexivity. Qed.

End Scenarios.

(** * Further scenarios *)

Section FurtherScenarios.
Import Eff CreateUser.

Local Abbreviation submitStatus server :=
  (TestCaseStatusModal.submit Scenario.User
     Scenario.getEntityReferenceFromEntity (Some Scenario.alice)
     Scenario.testCaseFqn server).

Local Abbreviation handleStatus server :=
  (TestCaseStatusModal.handleFormSubmit Scenario.User
     Scenario.getEntityReferenceFromEntity (Some Scenario.alice)
     Scenario.testCaseFqn server).

Lemma resolved_needs_reason_and_comment_witness :
  ∃ request,
    TestCaseStatusModal.requests
      (submitStatus Scenario.accepting Scenario.resolving).2
    = TestCaseStatusModal.requests Scenario.resolving ++ [request].
Proof.
  apply (resolved_needs_reason_and_comment Scenario.User
           Scenario.getEntityReferenceFromEntity (Some Scenario.alice)
           Scenario.testCaseFqn Scenario.accepting Scenario.resolving).
  reflexivity.
Defined.

Lemma other_status_request_witness :
  TestCaseStatusModal.requests
    (submitStatus Scenario.accepting Scenario.acknowledging).2
  = [ {| TestCaseStatusModal.testCaseResolutionStatusType :=
           Some (TestCaseStatusModal.OtherStatus "Ack");
         TestCaseStatusModal.testCaseResolutionStatusDetails := None;
         TestCaseStatusModal.testCaseReference :=
           Some Scenario.testCaseFqn |} ].
Proof.
  apply (other_status_request Scenario.User
           Scenario.getEntityReferenceFromEntity (Some Scenario.alice)
           Scenario.testCaseFqn Scenario.accepting Scenario.acknowledging
           "Ack").
  reflexivity.
Defined.

Lemma handleFormSubmit_undefined_assignee_witness :
  ∃ message,
    handleStatus Scenario.accepting
      (TestCaseStatusModal.form Scenario.unassigned) Scenario.unassigned
    = (Thrown (TestCaseStatusModal.TypeError message),
       {| TestCaseStatusModal.isLoading := true;
          TestCaseStatusModal.form :=
            TestCaseStatusModal.form Scenario.unassigned;
          TestCaseStatusModal.events := [] |}).
Proof.
  apply (handleFormSubmit_undefined_assignee Scenario.User
           Scenario.getEntityReferenceFromEntity (Some Scenario.alice)
           Scenario.testCaseFqn Scenario.accepting
           (TestCaseStatusModal.form Scenario.unassigned)
           Scenario.unassigned);
    reflexivity.
Defined.

Lemma resubmit_assigned_incident_witness :
  TestCaseStatusModal.watchAssignee
    (TestCaseStatusModal.form
       (TestCaseStatusModal.mounted (Some Scenario.commentedIncident)))
  = TestCaseStatusModal.Reference Scenario.bobReference
  ∧ TestCaseStatusModal.requests
      (submitStatus Scenario.unreachable
         (TestCaseStatusModal.mounted (Some Scenario.commentedIncident))).2
    = [ {| TestCaseStatusModal.testCaseResolutionStatusType :=
             Some TestCaseStatusModal.Assigned;
           TestCaseStatusModal.testCaseResolutionStatusDetails :=
             Some {| TestCaseStatusModal.testCaseFailureReason := None;
                     TestCaseStatusModal.testCaseFailureComment := None;
                     TestCaseStatusModal.resolvedBy := None;
                     TestCaseStatusModal.assignee :=
                       TestCaseStatusModal.Reference
                         Scenario.bobReference |};
           TestCaseStatusModal.testCaseReference :=
             Some Scenario.testCaseFqn |} ].
Proof.
  eapply (resubmit_assigned_incident Scenario.User
            Scenario.getEntityReferenceFromEntity (Some Scenario.alice)
            Scenario.testCaseFqn Scenario.unreachable
            Scenario.commentedIncident);
    reflexivity.
Defined.

Lemma handleOnChange_unknown_name_witness :
  handleOnChange (InputChange "nickname" "caz") (initialState false)
  = initialState false.
Proof.
  apply handleOnChange_unknown_name.
  intros Hin.
  repeat (apply elem_of_cons in Hin as [Hin|Hin]; [discriminate|]).
  by apply elem_of_nil in Hin.
Defined.

Lemma typed_commute_witness :
  step (step (initialState false) (Typed "email" "carol@example.com"))
       (Typed "password" "Abc123!")
  = step (step (initialState false) (Typed "password" "Abc123!"))
         (Typed "email" "carol@example.com").
Proof. apply typed_commute. discriminate. Defined.

Lemma removal_index_valid_witness :
  ∃ i : nat,
    Js.indexOf [Some "admin"; Some "steward"] (Some "steward") = Z.of_nat i
    ∧ [Some "admin"; Some "steward"] !! i = Some (Some "steward")
    ∧ (∀ j, j < i → [Some "admin"; Some "steward"] !! j ≠ Some (Some "steward"))
    ∧ selectedRolesHandler (Some "steward") [Some "admin"; Some "steward"]
      = take i [Some "admin"; Some "steward"]
        ++ drop (S i) [Some "admin"; Some "steward"].
Proof. apply removal_index_valid. reflexivity. Defined.




(** The password and the confirmation are both erased: they are equal and
    the confirmation validator accepts, yet nothing is saved, because the
    required rules of the two items fail. *)
Lemma equal_but_empty_passwords_blocked :
  passwordGenerator (run (initialState false) Scenario.erasedPassword)
  = CreatePassword
  ∧ fields (run (initialState false) Scenario.erasedPassword)
      !! "confirmPassword"
    = Some (password (run (initialState false) Scenario.erasedPassword))
  ∧ confirmPasswordValidator
      (password (run (initialState false) Scenario.erasedPassword))
      (fields (run (initialState false) Scenario.erasedPassword)
         !! "confirmPassword")
    = Returned tt
  ∧ submitForm false None Scenario.looksLikeEmail
      (run (initialState false) Scenario.erasedPassword)
    = [].
Proof. split_and!; vm_compute; reflexivity. Qed.

End FurtherScenarios.
